(** * The backend access layer: client provider, site configuration, pages

    A shallow embedding of the three server modules of the site front end
    ([lib/server/client], [lib/server/site], [lib/server/page]) and the
    properties their specification states about them.

    JavaScript values live in a store: objects and arrays are heap cells
    reached through references, so that [result = resp.global] followed by
    an assignment to [result] is seen through both names.  The Directus SDK
    and the network behind it are an interface ([Host]) that settles each
    method call; everything the modules themselves do is written out.

    The properties carry the numbers C1 to C10 of the specification's
    list.  Those the code does not have as stated come with a run that
    shows it, against a test double of the host. *)

From Stdlib Require Import Ascii.
From stdpp Require Import gmap strings list fin_maps pretty.

Local Open Scope string_scope.

(** ** Values and the store *)

Abbreviation loc := nat.

(** Numbers are kept to the integers: the modules never compute with them. *)
Inductive JsValue : Type :=
  | JUndefined
  | JNull
  | JBool (b : bool)
  | JNumber (n : Z)
  | JString (s : string)
  | JFunction (name : string)
  | JError (name message : string)
  | JRef (l : loc).

#[global] Instance JsValue_eq_dec : EqDecision JsValue.
Proof. solve_decision. Defined.

(** A function is known by its name; what calling it does is the host's
    business.  An [Error] instance is known by its name and message.  An
    array keeps its elements apart from its named properties: the
    modules reach the elements through [shift] only and read or write no
    property by index. *)
Inductive HeapCell : Type :=
  | HObject (props : gmap string JsValue)
  | HArray (items : list JsValue) (props : gmap string JsValue).

Abbreviation Heap := (gmap loc HeapCell).

(** A reference outside the store reads as an object without properties. *)
Definition cell (h : Heap) (l : loc) : HeapCell :=
  default (HObject ∅) (h !! l).

Definition own_props (c : HeapCell) : gmap string JsValue :=
  match c with
  | HObject props => props
  | HArray _ props => props
  end.

Inductive Completion (A : Type) : Type :=
  | Return (a : A)
  | Throw (e : JsValue).
Arguments Return {A} a.
Arguments Throw {A} e.

Definition TypeError (message : string) : JsValue := JError "TypeError" message.
Definition Error (message : string) : JsValue := JError "Error" message.

Definition typeof (v : JsValue) : string :=
  match v with
  | JUndefined => "undefined"
  | JNull => "object"
  | JBool _ => "boolean"
  | JNumber _ => "number"
  | JString _ => "string"
  | JFunction _ => "function"
  | JError _ _ => "object"
  | JRef _ => "object"
  end.

(** [ToBoolean]. *)
Definition truthy (v : JsValue) : bool :=
  match v with
  | JUndefined | JNull => false
  | JBool b => b
  | JNumber n => negb (n =? 0)%Z
  | JString s => negb (String.eqb s "")
  | JFunction _ | JError _ _ | JRef _ => true
  end.

(** [v?.k]: a property read that yields [undefined] on [null] and
    [undefined].  Properties inherited from the built-in prototypes are
    left out (none is among the names the modules read), save
    [Array.prototype.shift] where it is called. *)
Definition get_opt (h : Heap) (v : JsValue) (k : string) : JsValue :=
  match v with
  | JRef l => default JUndefined (own_props (cell h l) !! k)
  | JError name message =>
      if String.eqb k "name" then JString name
      else if String.eqb k "message" then JString message
      else JUndefined
  | _ => JUndefined
  end.

(** [v.k]: reading a property of [null] or [undefined] raises. *)
Definition get_prop (h : Heap) (v : JsValue) (k : string) : Completion JsValue :=
  match v with
  | JUndefined | JNull =>
      Throw (TypeError ("Cannot read properties of " ++
                        (if v is JNull then "null" else "undefined") ++
                        " (reading '" ++ k ++ "')"))
  | _ => Return (get_opt h v k)
  end.

(** [k in v]: raises unless [v] is an object.  As for reads, inherited
    names are left out, and so are an array's indices and length: the one
    name among [CLIENT_PROPS] that a built-in prototype has is [with], on
    arrays, which have no [globals]. *)
Definition has_property (h : Heap) (v : JsValue) (k : string) : Completion bool :=
  match v with
  | JRef l =>
      Return (bool_decide (is_Some (own_props (cell h l) !! k)))
  | JError _ _ => Return (String.eqb k "name" || String.eqb k "message")
  | JFunction _ => Return (String.eqb k "name" || String.eqb k "length")
  | _ => Throw (TypeError ("Cannot use 'in' operator to search for '" ++ k ++ "'"))
  end.

(** [Array.prototype.every] with a callback that may raise. *)
Fixpoint every {A : Type} (f : A → Completion bool) (l : list A) : Completion bool :=
  match l with
  | [] => Return true
  | x :: l' =>
      match f x with
      | Return true => every f l'
      | Return false => Return false
      | Throw e => Throw e
      end
  end.

Definition dquote : string := String "034"%char "".

(** ** [String.prototype.replace] with a string pattern

    The first occurrence of the pattern is replaced; the replacement text is
    expanded by [GetSubstitution]: [$$] stands for a dollar sign, [$&] for
    the matched text, [$`] and [$'] for what precedes and follows the match.
    A string pattern has no capture groups, so [$1], [$<name>] and a lone
    [$] stand for themselves.  The four pattern characters are ASCII, so
    working on bytes agrees with working on UTF-16 code units. *)

(** The text before and after the first occurrence of [pat] in [s]. *)
Fixpoint find_first (pat s : string) : option (string * string) :=
  if String.prefix pat s then
    Some ("", String.substring (String.length pat) (String.length s - String.length pat) s)
  else
    match s with
    | EmptyString => None
    | String c s' =>
        match find_first pat s' with
        | Some (before, after) => Some (String c before, after)
        | None => None
        end
    end.

Fixpoint GetSubstitution (matched preceding following template : string) : string :=
  match template with
  | EmptyString => ""
  | String c t =>
      if Ascii.eqb c "$"%char then
        match t with
        | String d rest =>
            if Ascii.eqb d "$"%char then "$" ++ GetSubstitution matched preceding following rest
            else if Ascii.eqb d "&"%char then matched ++ GetSubstitution matched preceding following rest
            else if Ascii.eqb d "`"%char then preceding ++ GetSubstitution matched preceding following rest
            else if Ascii.eqb d "'"%char then following ++ GetSubstitution matched preceding following rest
            else String c (GetSubstitution matched preceding following t)
        | EmptyString => String c ""
        end
      else String c (GetSubstitution matched preceding following t)
  end.

Definition String_replace (s searchValue replaceValue : string) : string :=
  match find_first searchValue s with
  | Some (preceding, following) =>
      preceding ++ GetSubstitution searchValue preceding following replaceValue ++ following
  | None => s
  end.

(** ** The host: environment, SDK and network, serialisation *)

(** A call that leaves the modules: an imported SDK function, or a method
    of an object under the name it was read by, with its receiver and
    arguments. *)
Record Call : Type := mkCall {
  callee : string;
  receiver : JsValue;
  arguments : list JsValue
}.

#[global] Instance Call_eq_dec : EqDecision Call.
Proof. solve_decision. Defined.

(** How such a call ends: a value (returned, or the awaited promise
    fulfilled with it) or an exception (raised, or the promise rejected). *)
Inductive Outcome : Type :=
  | Resolves (v : JsValue)
  | Rejects (e : JsValue).

Inductive Stream : Type := Stdout | Stderr | Debug.

#[global] Instance Stream_eq_dec : EqDecision Stream.
Proof. solve_decision. Defined.

(** [settle] answers a call from the calls made before it; it may allocate
    in the store and leaves the cells that exist as they are.
    [JSON_stringify] and [ToString] give the text a template literal
    interpolates; the values that reach them here are caught exceptions
    and records born from JSON. *)
Class Host : Type := {
  getenv : string → option string;
  settle : list Call → Call → Heap → Outcome * Heap;
  JSON_stringify : Heap → JsValue → string;
  ToString : Heap → JsValue → string;
  settle_extends : ∀ history c h, h ⊆ (settle history c h).2
}.

(** ** The world and the monad of module code *)

Record World : Type := mkWorld {
  heap : Heap;
  client : JsValue;              (* [let client] of lib/server/client *)
  console : list (Stream * string);
  calls : list Call
}.

Definition Js (A : Type) : Type := World → Completion A * World.

Definition ret {A : Type} (a : A) : Js A := fun w => (Return a, w).

Definition throw {A : Type} (e : JsValue) : Js A := fun w => (Throw e, w).

Definition bind {A B : Type} (m : Js A) (k : A → Js B) : Js B :=
  fun w =>
    match m w with
    | (Return a, w') => k a w'
    | (Throw e, w') => (Throw e, w')
    end.

Definition try_catch {A : Type} (m : Js A) (handler : JsValue → Js A) : Js A :=
  fun w =>
    match m w with
    | (Return a, w') => (Return a, w')
    | (Throw e, w') => handler e w'
    end.

Declare Scope js_scope.
Delimit Scope js_scope with js.
Notation "'let*' x ':=' m 'in' k" := (bind m (fun x => k))
  (at level 10, x name, m at level 100, k at level 200) : js_scope.
Notation "m ';;' k" := (bind m (fun _ => k))
  (at level 100, k at level 200, right associativity) : js_scope.
Local Open Scope js_scope.

Definition get_heap : Js Heap := fun w => (Return (heap w), w).

Definition lift {A : Type} (f : Heap → Completion A) : Js A :=
  fun w => (f (heap w), w).

Definition read_client : Js JsValue := fun w => (Return (client w), w).

Definition write_client (v : JsValue) : Js unit :=
  fun w => (Return tt, mkWorld (heap w) v (console w) (calls w)).

Definition print (s : Stream) (message : string) : Js unit :=
  fun w => (Return tt, mkWorld (heap w) (client w) (console w ++ [(s, message)]) (calls w)).

(** An object literal: a fresh cell. *)
Definition alloc (c : HeapCell) : Js JsValue :=
  fun w =>
    let l := fresh (dom (heap w)) in
    (Return (JRef l), mkWorld (<[l := c]> (heap w)) (client w) (console w) (calls w)).

Definition with_prop (k : string) (v : JsValue) (c : HeapCell) : HeapCell :=
  match c with
  | HObject props => HObject (<[k := v]> props)
  | HArray items props => HArray items (<[k := v]> props)
  end.

(** [target.k = v].  The modules are strict code: writing a property of a
    primitive raises. *)
Definition set_prop (target : JsValue) (k : string) (v : JsValue) : Js unit :=
  fun w =>
    match target with
    | JRef l =>
        (Return tt,
         mkWorld (<[l := with_prop k v (cell (heap w) l)]> (heap w))
                 (client w) (console w) (calls w))
    | _ => (Throw (TypeError ("Cannot create property '" ++ k ++ "'")), w)
    end.

(** [this.name] finds [Array.prototype.shift]: [this] is an array with no
    [shift] of its own. *)
Definition finds_Array_shift (h : Heap) (this : JsValue) (name : string) : bool :=
  match this with
  | JRef l =>
      match cell h l with
      | HArray _ props => String.eqb name "shift" && bool_decide (props !! name = None)
      | HObject _ => false
      end
  | _ => false
  end.

(** [Array.prototype.shift] on an array: removes and yields the first
    element; an empty array yields [undefined]. *)
Definition Array_shift (this : JsValue) : Js JsValue :=
  fun w =>
    match this with
    | JRef l =>
        match cell (heap w) l with
        | HArray (x :: rest) props =>
            (Return x, mkWorld (<[l := HArray rest props]> (heap w))
                               (client w) (console w) (calls w))
        | _ => (Return JUndefined, w)
        end
    | _ => (Return JUndefined, w)
    end.

Section Modules.

Context `{host : Host}.

(** A call settled by the host, recorded in [calls]. *)
Definition host_call (c : Call) : Js JsValue :=
  fun w =>
    let '(o, h') := settle (calls w) c (heap w) in
    let w' := mkWorld h' (client w) (console w) (calls w ++ [c]) in
    match o with
    | Resolves v => (Return v, w')
    | Rejects e => (Throw e, w')
    end.

(** Calling the value [f] read from [this.name]: a function is the
    host's to settle, anything else is not callable. *)
Definition invoke (f this : JsValue) (name : string) (args : list JsValue) : Js JsValue :=
  match f with
  | JFunction _ => host_call (mkCall name this args)
  | _ => throw (TypeError (name ++ " is not a function"))
  end.

(** [this.name(...args)]. *)
Definition call_method (this : JsValue) (name : string) (args : list JsValue) : Js JsValue :=
  let* f := lift (fun h => get_prop h this name) in
  let* h := get_heap in
  if finds_Array_shift h this name then Array_shift this
  else invoke f this name args.

(** A call of an imported binding. *)
Definition call_import (name : string) (args : list JsValue) : Js JsValue :=
  host_call (mkCall name JUndefined args).

(** [a === b]: references are equal when they are the same cell. *)
Definition strict_equals (a b : JsValue) : bool := bool_decide (a = b).

(** [process.env.NAME || fallback]: the empty string is falsy too. *)
Definition env_or (name fallback : string) : string :=
  match getenv name with
  | Some s => if String.eqb s "" then fallback else s
  | None => fallback
  end.

(** ** lib/server/client *)

Definition API_URL : string := env_or "API_URL" "http://localhost:8055".
Definition API_USERNAME : string := env_or "API_USERNAME" "admin".
Definition API_PASSWORD : string := env_or "API_PASSWORD" "password".

Definition CLIENT_PROPS : list string :=
  [ "globals"; "url"; "with"; "refresh"; "login"; "logout";
    "stopRefreshing"; "getToken"; "setToken"; "request"; "query" ].

(** The imports from [@directus/sdk]. *)
Definition createDirectus (url : string) : Js JsValue :=
  call_import "createDirectus" [JString url].
Definition authentication (mode : string) : Js JsValue :=
  call_import "authentication" [JString mode].
Definition rest : Js JsValue := call_import "rest" [].
Definition graphql : Js JsValue := call_import "graphql" [].

(** [d.with(extension)]: the member is read before the argument is
    evaluated. *)
Definition extend (d : JsValue) (extension : Js JsValue) : Js JsValue :=
  let* f := lift (fun h => get_prop h d "with") in
  let* e := extension in
  invoke f d "with" [e].

(** The parameters default to the environment's values when omitted
    ([None]); the body reads the constants, not the parameters. *)
Definition getBackendClient (apiUsername apiPassword apiUrl : option string) : Js JsValue :=
  let apiUsername := default API_USERNAME apiUsername in
  let apiPassword := default API_PASSWORD apiPassword in
  let apiUrl := default API_URL apiUrl in
  let* c := read_client in
  if negb (truthy c) then
    (let* d := createDirectus API_URL in
     let* d := extend d (authentication "json") in
     let* d := extend d rest in
     let* d := extend d graphql in
     write_client d) ;;
    try_catch
      (let* c := read_client in
       call_method c "login" [JString API_USERNAME; JString API_PASSWORD] ;;
       ret tt)
      (fun err =>
         let* h := get_heap in
         throw (Error ("Failed to log into backend: " ++ JSON_stringify h err))) ;;
    read_client
  else
    read_client.

Definition isDirectusClient (h : Heap) (client : JsValue) : Completion bool :=
  if String.eqb (typeof client) "object"
  then every (fun prop => has_property h client prop) CLIENT_PROPS
  else Return false.

(** ** lib/server/site *)

Definition SITE_CONFIG_QUERY : string :=
"{
  global {
    title
    description
    navbar_config
    service_mode
    date_updated
  }
}".

Definition MAINTENANCE_MODE_QUERY : string :=
"{
  global {
    maintenance_page_title
    maintenance_page_body
  }
}".

(** [console.error], [console.log] and [debug] append to [console]; the
    template literal handed to [debug] is evaluated whether or not the
    namespace is enabled. *)
Definition getSiteConfig : Js JsValue :=
  let* client := getBackendClient None None None in
  let* resp :=
    try_catch
      (call_method client "query" [JString SITE_CONFIG_QUERY])
      (fun error =>
         let* h := get_heap in
         let errMsg := "Failed to retrieve site config: " ++ ToString h error in
         print Stderr errMsg ;;
         throw (Error errMsg)) in
  let* result :=
    (let* h := get_heap in
     if truthy (get_opt h resp "global") then
       lift (fun h => get_prop h resp "global")
     else
       print Stderr "No global object found in getSiteConfig, should not happen." ;;
       alloc (HObject ∅)) in
  (let* service_mode := lift (fun h => get_prop h result "service_mode") in
   if strict_equals service_mode (JString "maintenance") then
     print Stdout "Site is in maintenance mode" ;;
     let* resp :=
       try_catch
         (call_method client "query" [JString MAINTENANCE_MODE_QUERY])
         (fun error =>
            let* h := get_heap in
            let errMsg := "Failed to retrieve maintenance mode config: " ++ ToString h error in
            print Stderr errMsg ;;
            throw (Error errMsg)) in
     let* h := get_heap in
     if truthy (get_opt h resp "global") then
       (let* global := lift (fun h => get_prop h resp "global") in
        let* title := lift (fun h => get_prop h global "maintenance_page_title") in
        set_prop result "maintenance_page_title" title) ;;
       (let* global := lift (fun h => get_prop h resp "global") in
        let* body := lift (fun h => get_prop h global "maintenance_page_body") in
        set_prop result "maintenance_page_body" body)
     else ret tt
   else ret tt) ;;
  (let* h := get_heap in
   print Debug ("in getSiteConfig, result: " ++ JSON_stringify h result)) ;;
  ret result.

(** ** lib/server/page

    The module imports [getBackendClient] under the path
    [lib/server/directus]; it is the client provider above. *)

Definition PAGE_QUERY : string :=
"{
  page(filter: { slug: { _eq: " ++ dquote ++ "{{slug}}" ++ dquote ++ " } }) {
      slug
      title
      script
      content
      style
  }
}".

(** [slug] and [query] are strings, as documented; [query] defaults to
    the template when omitted ([None]). *)
Definition getPage (slug : string) (query : option string) : Js JsValue :=
  let query := default PAGE_QUERY query in
  let* client := getBackendClient None None None in
  let query := String_replace query "{{slug}}" slug in
  let* result :=
    try_catch
      (let* resp := call_method client "query" [JString query] in
       let* page := lift (fun h => get_prop h resp "page") in
       call_method page "shift" [])
      (fun err =>
         let* h := get_heap in
         throw (Error ("failed to retrieve page: " ++ JSON_stringify h err))) in
  ret result.

End Modules.

(** ** Notions the properties are stated with *)

(** The template with its first placeholder replaced by the text as it
    stands: what the specification calls literal replacement. *)
Definition substitute_literally (template placeholder text : string) : string :=
  match find_first placeholder template with
  | Some (before, after) => before ++ text ++ after
  | None => template
  end.

(** No dollar sign occurs in [s]. *)
Fixpoint dollar_free (s : string) : bool :=
  match s with
  | EmptyString => true
  | String c s' => negb (Ascii.eqb c "$"%char) && dollar_free s'
  end.

(** The record [v] has a property [k] of its own. *)
Definition has_field (h : Heap) (v : JsValue) (k : string) : bool :=
  match v with
  | JRef l => bool_decide (is_Some (own_props (cell h l) !! k))
  | _ => false
  end.

Definition has_maintenance_fields (h : Heap) (v : JsValue) : bool :=
  has_field h v "maintenance_page_title" && has_field h v "maintenance_page_body".

(** The texts sent by the [query] calls of a log, in order. *)
Definition issued_queries (cs : list Call) : list JsValue :=
  omap (fun c => if String.eqb (callee c) "query" then head (arguments c) else None) cs.

Definition is_login (c : Call) : bool := String.eqb (callee c) "login".

(** The number of [login] calls in a log. *)
Definition login_count (cs : list Call) : nat := length (List.filter is_login cs).

Definition completion_of (o : Outcome) : Completion JsValue :=
  match o with
  | Resolves v => Return v
  | Rejects e => Throw e
  end.

(** The second query of [getSiteConfig], as the host sees it. *)
Definition maintenance_call (c : JsValue) : Call :=
  mkCall "query" c [JString MAINTENANCE_MODE_QUERY].

(** The lines [getSiteConfig] writes. *)
Definition NO_GLOBAL : Stream * string :=
  (Stderr, "No global object found in getSiteConfig, should not happen.").

Definition MAINTENANCE_NOTICE : Stream * string :=
  (Stdout, "Site is in maintenance mode").

(** The store after the two assignments of the merge, made to the record
    at [l] from the response [resp]. *)
Definition merged (h : Heap) (l : loc) (resp : JsValue) : Heap :=
  let title := get_opt h (get_opt h resp "global") "maintenance_page_title" in
  let h' := <[l := with_prop "maintenance_page_title" title (cell h l)]> h in
  let body := get_opt h' (get_opt h' resp "global") "maintenance_page_body" in
  <[l := with_prop "maintenance_page_body" body (cell h' l)]> h'.

Section Stages.

Context `{host : Host}.

Definition debug_line (h : Heap) (result : JsValue) : Stream * string :=
  (Debug, "in getSiteConfig, result: " ++ JSON_stringify h result).

(** The stages of a run of [getSiteConfig] that reaches the site
    configuration: the client [c] obtained in [w0], the first response
    [resp] received in [w1]. *)
Definition first_response (w : World) (c : JsValue) (w0 : World)
    (resp : JsValue) (w1 : World) : Prop :=
  getBackendClient None None None w = (Return c, w0) ∧
  call_method c "query" [JString SITE_CONFIG_QUERY] w0 = (Return resp, w1).

End Stages.

(** ** A test double for the host

    A backend in the manner of the SDK: [createDirectus] yields the core
    client, each extension adds its members through [with], [login] accepts
    one account, and [query] answers from a script of JSON documents. *)

Module Mock.

#[warnings="-register-all"]
Inductive Json : Type :=
  | JsonNull
  | JsonBool (b : bool)
  | JsonNumber (n : Z)
  | JsonString (s : string)
  | JsonArray (items : list Json)
  | JsonObject (members : list (string * Json)).

Definition store (c : HeapCell) (h : Heap) : JsValue * Heap :=
  let l := fresh (dom h) in (JRef l, <[l := c]> h).

(** Threads the store through the elements of a list. *)
Definition thread {A B : Type} (f : A → Heap → B * Heap)
  : list A → Heap → list B * Heap :=
  fix each (l : list A) (h : Heap) : list B * Heap :=
    match l with
    | [] => ([], h)
    | x :: l' =>
        let '(v, h1) := f x h in
        let '(vs, h2) := each l' h1 in
        (v :: vs, h2)
    end.

(** What [JSON.parse] leaves in the store; of two members with one name
    the later stands. *)
Fixpoint parse (j : Json) (h : Heap) : JsValue * Heap :=
  match j with
  | JsonNull => (JNull, h)
  | JsonBool b => (JBool b, h)
  | JsonNumber n => (JNumber n, h)
  | JsonString s => (JString s, h)
  | JsonArray items =>
      let '(vs, h') := thread parse items h in
      store (HArray vs ∅) h'
  | JsonObject members =>
      let '(kvs, h') := thread (fun '(k, j) h => let '(v, h1) := parse j h in ((k, v), h1))
                               members h in
      store (HObject (list_to_map (reverse kvs))) h'
  end.

Definition members (names : list string) : gmap string JsValue :=
  list_to_map ((fun n => (n, JFunction n)) <$> names).

Inductive Answer : Type :=
  | Data (j : Json)
  | Failure (message : string).

Record Backend : Type := {
  environment : list (string * string);
  account : string * string;
  script : list Answer
}.

Definition is_query (c : Call) : bool := String.eqb (callee c) "query".

Definition not_implemented (h : Heap) : Outcome * Heap :=
  (Rejects (TypeError "not implemented"), h).

Definition mock_settle (b : Backend) (history : list Call) (c : Call) (h : Heap)
  : Outcome * Heap :=
  let resolve '(v, h') := (Resolves v, h') in
  let name := callee c in
  if String.eqb name "createDirectus" then
    match arguments c with
    | [url] => resolve (store (HObject (<["url" := url]> (members ["globals"; "with"]))) h)
    | _ => not_implemented h
    end
  else if String.eqb name "authentication" then
    resolve (store (HObject (members ["refresh"; "login"; "logout";
                                      "stopRefreshing"; "getToken"; "setToken"])) h)
  else if String.eqb name "rest" then resolve (store (HObject (members ["request"])) h)
  else if String.eqb name "graphql" then resolve (store (HObject (members ["query"])) h)
  else if String.eqb name "with" then
    match receiver c, arguments c with
    | JRef d, [JRef e] =>
        resolve (store (HObject (own_props (cell h e) ∪ own_props (cell h d))) h)
    | _, _ => not_implemented h
    end
  else if String.eqb name "login" then
    match arguments c with
    | [JString user; JString password] =>
        if bool_decide ((user, password) = account b) then (Resolves JUndefined, h)
        else (Rejects (Error "Invalid user credentials."), h)
    | _ => not_implemented h
    end
  else if String.eqb name "query" then
    match script b !! length (filter is_query history) with
    | Some (Data j) => resolve (parse j h)
    | Some (Failure message) => (Rejects (Error message), h)
    | None => (Rejects (Error "fetch failed"), h)
    end
  else not_implemented h.

(** Errors have no enumerable properties and serialise as an empty object;
    objects and arrays are abridged. *)
Definition mock_stringify (h : Heap) (v : JsValue) : string :=
  match v with
  | JUndefined | JFunction _ => "undefined"
  | JNull => "null"
  | JBool b => if b then "true" else "false"
  | JNumber n => pretty n
  | JString s => dquote ++ s ++ dquote
  | JError _ _ => "{}"
  | JRef l => match cell h l with HObject _ => "{...}" | HArray _ _ => "[...]" end
  end.

Definition mock_to_string (h : Heap) (v : JsValue) : string :=
  match v with
  | JUndefined => "undefined"
  | JNull => "null"
  | JBool b => if b then "true" else "false"
  | JNumber n => pretty n
  | JString s => s
  | JFunction name => "function " ++ name ++ "() { [native code] }"
  | JError name message => name ++ ": " ++ message
  | JRef l => match cell h l with HObject _ => "[object Object]" | HArray _ _ => "[...]" end
  end.

Definition boot : World := mkWorld ∅ JUndefined [] [].

Lemma fresh_unused (h : Heap) : h !! fresh (dom h) = None.
Proof. apply not_elem_of_dom, is_fresh. Qed.

Lemma store_extends (c : HeapCell) (h : Heap) : h ⊆ (store c h).2.
Proof. apply insert_subseteq, fresh_unused. Qed.

Fixpoint parse_extends (j : Json) (h : Heap) {struct j} : h ⊆ (parse j h).2.
Proof.
  destruct j as [| b | n | s | items | ms]; simpl; try reflexivity.
  - assert (Heach : ∀ h0, h0 ⊆ (thread parse items h0).2).
    { clear h. induction items as [| j items IH]; intros h0; simpl; [reflexivity |].
      pose proof (parse_extends j h0) as Hj.
      destruct (parse j h0) as [v h1]; simpl in *.
      pose proof (IH h1) as Hrest.
      destruct (thread parse items h1) as [vs h2]; simpl in *.
      by etrans. }
    specialize (Heach h). destruct (thread parse items h) as [vs h']; simpl in *.
    etrans; [exact Heach | apply store_extends].
  - match goal with |- context [thread ?f ms h] => set (each := thread f) end.
    assert (Heach : ∀ h0, h0 ⊆ (each ms h0).2).
    { clear h. subst each.
      induction ms as [| [k j] ms IH]; intros h0; simpl; [reflexivity |].
      pose proof (parse_extends j h0) as Hj.
      destruct (parse j h0) as [v h1]; simpl in *.
      pose proof (IH h1) as Hrest.
      match goal with |- context [thread ?f ms h1] =>
        destruct (thread f ms h1) as [vs h2] end; simpl in *.
      by etrans. }
    specialize (Heach h). destruct (each ms h) as [props h']; simpl in *.
    etrans; [exact Heach | apply store_extends].
Qed.

Lemma mock_settle_extends (b : Backend) (history : list Call) (c : Call) (h : Heap) :
  h ⊆ (mock_settle b history c h).2.
Proof.
  unfold mock_settle, not_implemented.
  repeat case_match; simpl; try reflexivity.
  all: match goal with
       | H : parse ?j ?h = (_, ?h') |- ?h ⊆ ?h' =>
           pose proof (parse_extends j h) as He; by rewrite H in He
       | H : store ?c ?h = (_, ?h') |- ?h ⊆ ?h' =>
           pose proof (store_extends c h) as He; by rewrite H in He
       end.
Qed.

Definition mock (b : Backend) : Host := {|
  getenv name := list_to_map (M := gmap string string) (environment b) !! name;
  settle := mock_settle b;
  JSON_stringify := mock_stringify;
  ToString := mock_to_string;
  settle_extends := mock_settle_extends b
|}.

End Mock.



(** Backends for the worked runs. *)
Module Scenario.

Import Mock.

Definition site_config (mode : string) : Json :=
  JsonObject
    [("global",
      JsonObject [("title", JsonString "LigerBots");
                  ("description", JsonString "FRC Team 2877");
                  ("navbar_config", JsonArray []);
                  ("service_mode", JsonString mode);
                  ("date_updated", JsonString "2024-03-01T12:00:00.000Z")])].

Definition maintenance_text : Json :=
  JsonObject
    [("global",
      JsonObject [("maintenance_page_title", JsonString "Down for maintenance");
                  ("maintenance_page_body", JsonString "Back soon.")])].

Definition about_page : Json :=
  JsonObject [("slug", JsonString "about");
              ("title", JsonString "About us");
              ("content", JsonString "Who we are.")].

Definition backend (script : list Answer) : Backend :=
  {| environment := []; account := ("admin", "password"); script := script |}.

(** The site in normal operation. *)
Definition normal_site : Host := mock (backend [Data (site_config "normal")]).

(** The site in maintenance, the maintenance text in place. *)
Definition site_in_maintenance : Host :=
  mock (backend [Data (site_config "maintenance"); Data maintenance_text]).

(** The site in maintenance, the second answer without a [global] record:
    once [null], once absent. *)
Definition maintenance_null_text : Host :=
  mock (backend [Data (site_config "maintenance");
                 Data (JsonObject [("global", JsonNull)])]).

Definition maintenance_no_text : Host :=
  mock (backend [Data (site_config "maintenance"); Data (JsonObject [])]).

(** The site in maintenance, the maintenance query failing. *)
Definition maintenance_failing : Host :=
  mock (backend [Data (site_config "maintenance"); Failure "permission denied"]).

(** A first answer without a [global] record. *)
Definition site_without_global : Host := mock (backend [Data (JsonObject [])]).

(** One page matches; no page matches. *)
Definition one_page : Host :=
  mock (backend [Data (JsonObject [("page", JsonArray [about_page])])]).

Definition no_page : Host :=
  mock (backend [Data (JsonObject [("page", JsonArray [])])]).

(** The page query answered without a list of pages. *)
Definition page_without_list : Host := mock (backend [Data (JsonObject [])]).

(** The password of the configured account has been changed. *)
Definition changed_password : Host :=
  mock {| environment := []; account := ("admin", "correct horse"); script := [] |}.

(** The backend knows an editor, not the default account. *)
Definition editors_only : Host :=
  mock {| environment := []; account := ("editor", "s3cret"); script := [] |}.

End Scenario.

(** * Properties *)

(** ** The capability check *)



(** C2.  [isDirectusClient(null)] does not answer [false]: [typeof null]
    is ["object"], so the first membership test runs on [null] and raises
    a [TypeError]. *)
Theorem isDirectusClient_null_raises (h : Heap) :
  isDirectusClient h JNull =
    Throw (TypeError "Cannot use 'in' operator to search for 'globals'").
Proof. reflexivity. Qed.

(** ** Replacing the placeholder *)

Lemma substring_all (s : string) : String.substring 0 (String.length s) s = s.
Proof. induction s as [| c s IH]; simpl; [done | by rewrite IH]. Qed.

Lemma prefix_split (pat s : string) :
  String.prefix pat s = true →
  s = pat ++ String.substring (String.length pat) (String.length s - String.length pat) s.
Proof.
  revert s. induction pat as [| c pat IH]; intros s Hprefix.
  - simpl. by rewrite Nat.sub_0_r, substring_all.
  - destruct s as [| c' s]; [done |]. simpl in Hprefix.
    destruct (Ascii.ascii_dec c c') as [<- | ?]; [| done].
    change (String c s = String c (pat ++ String.substring (String.length pat)
              (String.length s - String.length pat) s)).
    f_equal. by apply IH.
Qed.

Lemma find_first_cons (pat : string) (c : ascii) (s : string) :
  find_first pat (String c s) =
    if String.prefix pat (String c s) then
      Some ("", String.substring (String.length pat)
                  (String.length (String c s) - String.length pat) (String c s))
    else
      match find_first pat s with
      | Some (before, after) => Some (String c before, after)
      | None => None
      end.
Proof. reflexivity. Qed.

(** [find_first] splits the text around an occurrence of the pattern. *)
Lemma find_first_split (pat s before after : string) :
  find_first pat s = Some (before, after) → s = before ++ pat ++ after.
Proof.
  revert before. induction s as [| c s IH]; intros before H.
  - destruct pat; [| done]. by injection H as <- <-.
  - rewrite find_first_cons in H.
    destruct (String.prefix pat (String c s)) eqn:Hp.
    + injection H as <- <-. by apply prefix_split.
    + destruct (find_first pat s) as [[b a] |]; [| done].
      injection H as <- <-.
      change (String c s = String c (b ++ pat ++ a)).
      f_equal. by apply IH.
Qed.

Lemma append_empty (s : string) : s ++ "" = s.
Proof.
  induction s as [| c s IH]; [done |].
  change (String c (s ++ "") = String c s). by rewrite IH.
Qed.

(** With the replacement text [$&] the string comes back as it was. *)
Lemma String_replace_matched (template placeholder : string) :
  String_replace template placeholder "$&" = template.
Proof.
  unfold String_replace.
  destruct (find_first placeholder template) as [[before after] |] eqn:Hfind; [| done].
  apply find_first_split in Hfind.
  change (GetSubstitution placeholder before after "$&") with (placeholder ++ "").
  by rewrite append_empty.
Qed.

Lemma GetSubstitution_dollar_free (matched preceding following text : string) :
  dollar_free text = true →
  GetSubstitution matched preceding following text = text.
Proof.
  induction text as [| c t IH]; simpl; [done |].
  intros [Hc Ht]%andb_true_iff. apply negb_true_iff in Hc. rewrite Hc.
  by rewrite IH.
Qed.

(** A slug without a dollar sign is inserted as it stands. *)
Lemma String_replace_literal (template placeholder slug : string) :
  dollar_free slug = true →
  String_replace template placeholder slug =
    substitute_literally template placeholder slug.
Proof.
  intros Hfree. unfold String_replace, substitute_literally.
  destruct (find_first placeholder template) as [[before after] |]; [| done].
  by rewrite GetSubstitution_dollar_free.
Qed.

(** ** Running module code *)

Section Runs.

Context `{host : Host}.

Lemma bind_Return {A B : Type} (m : Js A) (k : A → Js B) (w : World) (b : B) (w' : World) :
  bind m k w = (Return b, w') →
  ∃ a w1, m w = (Return a, w1) ∧ k a w1 = (Return b, w').
Proof.
  unfold bind. destruct (m w) as [[a | e] w1]; [eauto | done].
Qed.

Lemma bind_run {A B : Type} (m : Js A) (k : A → Js B) (w : World) (a : A) (w1 : World) :
  m w = (Return a, w1) → bind m k w = k a w1.
Proof. intros H. unfold bind. by rewrite H. Qed.

Lemma bind_throw {A B : Type} (m : Js A) (k : A → Js B) (w : World) (e : JsValue) (w1 : World) :
  m w = (Throw e, w1) → bind m k w = (Throw e, w1).
Proof. intros H. unfold bind. by rewrite H. Qed.

Lemma host_call_run (c : Call) (w : World) :
  host_call c w =
    (completion_of (settle (calls w) c (heap w)).1,
     mkWorld (settle (calls w) c (heap w)).2 (client w) (console w) (calls w ++ [c])%list).
Proof.
  unfold host_call. destruct (settle (calls w) c (heap w)) as [[v | e] h']; done.
Qed.

(** A method that answers was a function of the receiver, settled by the
    host (the built-in [shift] of arrays apart). *)
Lemma finds_Array_shift_other (h : Heap) (this : JsValue) (name : string) :
  name ≠ "shift" → finds_Array_shift h this name = false.
Proof.
  intros Hname%String.eqb_neq. unfold finds_Array_shift.
  repeat case_match; try done. by rewrite Hname.
Qed.

Lemma call_method_Return (this : JsValue) (name : string) (args : list JsValue)
    (w : World) (v : JsValue) (w' : World) :
  name ≠ "shift" →
  call_method this name args w = (Return v, w') →
  ∃ l f, this = JRef l ∧ own_props (cell (heap w) l) !! name = Some (JFunction f) ∧
         host_call (mkCall name this args) w = (Return v, w').
Proof.
  intros Hname H. unfold call_method in H.
  apply bind_Return in H as (f & w1 & Hf & H).
  apply bind_Return in H as (h & w2 & Hh & Hinv).
  unfold get_heap in Hh. injection Hh as <- <-.
  rewrite finds_Array_shift_other in Hinv by done.
  unfold lift in Hf. unfold invoke in Hinv.
  destruct f; try discriminate Hinv.
  destruct this as [| | b | n | s | g | en em | l]; simpl in Hf;
    try discriminate Hf; injection Hf as Hf <-.
  - repeat case_match; simplify_eq.
  - exists l, name0. split; [done |]. split; [| done].
    by destruct (own_props (cell (heap w) l) !! name); simplify_eq/=.
Qed.

Lemma call_method_function (l : loc) (f : string) (name : string) (args : list JsValue)
    (w : World) :
  name ≠ "shift" →
  own_props (cell (heap w) l) !! name = Some (JFunction f) →
  call_method (JRef l) name args w = host_call (mkCall name (JRef l) args) w.
Proof.
  intros Hname Hf. unfold call_method, bind, lift, get_heap.
  rewrite finds_Array_shift_other by done. simpl. by rewrite Hf.
Qed.

Lemma call_import_calls (name : string) (args : list JsValue) (w : World)
    (r : Completion JsValue) (w' : World) :
  call_import name args w = (r, w') →
  calls w' = (calls w ++ [mkCall name JUndefined args])%list ∧ client w' = client w.
Proof.
  unfold call_import. rewrite host_call_run. by intros [= <- <-].
Qed.

Lemma extend_Return (d : JsValue) (name : string) (args : list JsValue) (w : World)
    (v : JsValue) (w' : World) :
  extend d (call_import name args) w = (Return v, w') →
  ∃ e, calls w' = (calls w ++ [mkCall name JUndefined args; mkCall "with" d [e]])%list.
Proof.
  unfold extend. intros H.
  apply bind_Return in H as (f & w1 & Hf & H).
  apply bind_Return in H as (e & w2 & He & H).
  unfold lift in Hf. assert (w1 = w) as -> by (by injection Hf).
  apply call_import_calls in He as [He _].
  exists e. unfold invoke in H.
  destruct f; try discriminate H.
  rewrite host_call_run in H. injection H as _ <-. simpl.
  by rewrite He, <- app_assoc.
Qed.

(** A first call that returns has built the client, stored it, and ended
    with the one [login] call, made with the configured account. *)
Lemma getBackendClient_first (u p l : option string) (w : World) (c : JsValue) (w1 : World) :
  truthy (client w) = false →
  getBackendClient u p l w = (Return c, w1) →
  truthy c = true ∧ client w1 = c ∧
  last (calls w1) = Some (mkCall "login" c [JString API_USERNAME; JString API_PASSWORD]) ∧
  login_count (calls w1) = S (login_count (calls w)).
Proof.
  intros Hunset H. unfold getBackendClient in H.
  apply bind_Return in H as (c0 & w0 & Hread & H).
  unfold read_client in Hread. injection Hread as <- <-.
  rewrite Hunset in H. cbv [negb] in H.
  apply bind_Return in H as ([] & wa & Hbuild & H).
  apply bind_Return in H as ([] & wb & Hlogin & H).
  unfold read_client in H. injection H as <- <-.
  (* building *)
  apply bind_Return in Hbuild as (d0 & w2 & Hd0 & Hbuild).
  apply bind_Return in Hbuild as (d1 & w3 & Hd1 & Hbuild).
  apply bind_Return in Hbuild as (d2 & w4 & Hd2 & Hbuild).
  apply bind_Return in Hbuild as (d3 & w5 & Hd3 & Hbuild).
  unfold write_client in Hbuild. injection Hbuild as <-.
  apply call_import_calls in Hd0 as [Hc0 _].
  apply extend_Return in Hd1 as [e1 Hc1].
  apply extend_Return in Hd2 as [e2 Hc2].
  apply extend_Return in Hd3 as [e3 Hc3].
  (* logging in *)
  unfold try_catch in Hlogin.
  match type of Hlogin with context [match ?m ?x with _ => _ end] =>
    destruct (m x) as [[[] | e] wl] eqn:Hin end.
  2: { unfold bind, get_heap, throw in Hlogin. simpl in Hlogin. discriminate Hlogin. }
  injection Hlogin as ->.
  apply bind_Return in Hin as (c1 & wr & Hread & Hin).
  unfold read_client in Hread. simpl in Hread. injection Hread as <- <-.
  apply bind_Return in Hin as (r & wl & Hcall & Hin).
  unfold ret in Hin. injection Hin as <-.
  apply call_method_Return in Hcall as (lc & f & -> & _ & Hcall); [| done].
  rewrite host_call_run in Hcall. injection Hcall as _ <-. simpl.
  split; [done |]. split; [done |]. split.
  - by rewrite last_snoc.
  - unfold login_count. rewrite Hc3, Hc2, Hc1, Hc0.
    rewrite !List.filter_app, !length_app. simpl. lia.
Qed.

Lemma bind_cases {A B : Type} (m : Js A) (k : A → Js B) (w : World)
    (r : Completion B) (w' : World) :
  bind m k w = (r, w') →
  (∃ e, m w = (Throw e, w') ∧ r = Throw e) ∨
  (∃ a w1, m w = (Return a, w1) ∧ k a w1 = (r, w')).
Proof.
  unfold bind. destruct (m w) as [[a | e] w1]; [eauto |].
  intros [= <- <-]. eauto.
Qed.

Lemma host_call_logins (c : Call) (w : World) (r : Completion JsValue) (w' : World) :
  is_login c = false →
  host_call c w = (r, w') →
  login_count (calls w') = login_count (calls w) ∧ client w' = client w.
Proof.
  intros Hc. rewrite host_call_run. intros [= <- <-]. simpl.
  split; [| done].
  unfold login_count. rewrite List.filter_app, length_app. simpl.
  rewrite Hc. simpl. lia.
Qed.

(** Building the client makes no login, however it ends. *)
Lemma extend_logins (d : JsValue) (name : string) (args : list JsValue) (w : World)
    (r : Completion JsValue) (w' : World) :
  String.eqb name "login" = false →
  extend d (call_import name args) w = (r, w') →
  login_count (calls w') = login_count (calls w) ∧ client w' = client w.
Proof.
  intros Hname H. unfold extend in H.
  apply bind_cases in H as [(e & Hf & ->) | (f & w1 & Hf & H)].
  { unfold lift in Hf. by injection Hf as _ <-. }
  unfold lift in Hf. assert (w1 = w) as -> by (by injection Hf).
  apply bind_cases in H as [(e & He & ->) | (e & w2 & He & H)].
  { by apply host_call_logins in He. }
  apply host_call_logins in He as [He1 He2]; [| done].
  unfold invoke in H.
  destruct f; try (unfold throw in H; injection H as _ <-; done).
  apply host_call_logins in H as [H1 H2]; [| done]. split; congruence.
Qed.

(** X3.  The defect behind a failed login, for every host: when a first call
    fails after a login was attempted, the error is the wrapped one, and
    the client is left in place, so that every later call returns it
    without logging in. *)
Lemma login_rejection_memoized (u p l : option string) (w : World)
    (e : JsValue) (w1 : World) :
  truthy (client w) = false →
  getBackendClient u p l w = (Throw e, w1) →
  login_count (calls w1) ≠ login_count (calls w) →
  (∃ err, e = Error ("Failed to log into backend: " ++ JSON_stringify (heap w1) err)) ∧
  truthy (client w1) = true ∧
  ∀ u' p' l', getBackendClient u' p' l' w1 = (Return (client w1), w1).
Proof.
  intros Hunset H Hlogged. unfold getBackendClient in H.
  rewrite (bind_run read_client _ w (client w) w) in H by done.
  rewrite Hunset in H. cbv [negb] in H.
  apply bind_cases in H as [(e' & Hbuild & _) | ([] & wa & Hbuild & H)].
  { (* the failure is in the building: no login was attempted *)
    exfalso. apply Hlogged.
    apply bind_cases in Hbuild as [(? & Hd & _) | (d0 & w2 & Hd0 & Hbuild)].
    { by apply host_call_logins in Hd as [? _]. }
    apply host_call_logins in Hd0 as [Hc0 _]; [| done].
    apply bind_cases in Hbuild as [(? & Hd & _) | (d1 & w3 & Hd1 & Hbuild)].
    { apply extend_logins in Hd as [? _]; [congruence | done]. }
    apply extend_logins in Hd1 as [Hc1 _]; [| done].
    apply bind_cases in Hbuild as [(? & Hd & _) | (d2 & w4 & Hd2 & Hbuild)].
    { apply extend_logins in Hd as [? _]; [congruence | done]. }
    apply extend_logins in Hd2 as [Hc2 _]; [| done].
    apply bind_cases in Hbuild as [(? & Hd & _) | (d3 & w5 & Hd3 & Hbuild)].
    { apply extend_logins in Hd as [? _]; [congruence | done]. }
    unfold write_client in Hbuild. discriminate Hbuild. }
  assert (Hsame : login_count (calls wa) = login_count (calls w)).
  { apply bind_Return in Hbuild as (d0 & w2 & Hd0 & Hbuild).
    apply bind_Return in Hbuild as (d1 & w3 & Hd1 & Hbuild).
    apply bind_Return in Hbuild as (d2 & w4 & Hd2 & Hbuild).
    apply bind_Return in Hbuild as (d3 & w5 & Hd3 & Hbuild).
    unfold write_client in Hbuild. injection Hbuild as <-. simpl.
    apply host_call_logins in Hd0 as [? _]; [| done].
    apply extend_logins in Hd1 as [? _]; [| done].
    apply extend_logins in Hd2 as [? _]; [| done].
    apply extend_logins in Hd3 as [? _]; [| done].
    congruence. }
  apply bind_cases in H as [(e' & Hlogin & [= <-]) | ([] & wb & _ & H)].
  2: { unfold read_client in H. discriminate H. }
  unfold try_catch in Hlogin.
  match type of Hlogin with context [match ?m ?x with _ => _ end] =>
    destruct (m x) as [[[] | err] wl] eqn:Hin end; [discriminate Hlogin |].
  unfold bind, get_heap, throw in Hlogin. injection Hlogin as <- <-.
  split; [eauto |].
  (* the login block: the client is read, its login called *)
  apply bind_cases in Hin as [(? & Hread & _) | (c & wr & Hread & Hin)].
  { unfold read_client in Hread. discriminate Hread. }
  unfold read_client in Hread. injection Hread as <- <-.
  apply bind_cases in Hin as [(? & Hcall & _) | (? & ? & _ & Hin)].
  2: { unfold ret in Hin. discriminate Hin. }
  unfold call_method in Hcall.
  apply bind_cases in Hcall as [(? & Hf & _) | (f & w2 & Hf & Hcall)].
  { unfold lift in Hf. injection Hf as _ <-. congruence. }
  unfold lift in Hf. assert (w2 = wa) as -> by (by injection Hf).
  apply bind_cases in Hcall as [(? & Hh & _) | (h & w3 & Hh & Hcall)].
  { unfold get_heap in Hh. discriminate Hh. }
  unfold get_heap in Hh. injection Hh as <- <-.
  rewrite finds_Array_shift_other in Hcall by done.
  unfold invoke in Hcall.
  destruct f; try (unfold throw in Hcall; injection Hcall as _ <-; congruence).
  assert (Hclient : client wl = client wa ∧ ∃ lc, client wa = JRef lc).
  { rewrite host_call_run in Hcall. injection Hcall as _ <-. split; [done |].
    destruct (client wa); simpl in Hf; try discriminate Hf; eauto. }
  destruct Hclient as [Hkept [lc Hlc]].
  assert (Htruthy : truthy (client wl) = true) by by rewrite Hkept, Hlc.
  split; [done |]. intros u' p' l'. unfold getBackendClient.
  rewrite (bind_run read_client _ wl (client wl) wl) by done.
  by rewrite Htruthy.
Qed.

(** C5.  Once a call has returned a client (on a first invocation: the
    client was built and the login accepted, with one [login] call), the
    next call, whatever its arguments, returns that same client and does
    nothing else: the log of calls, and with it the number of logins,
    stays as it was. *)
Theorem getBackendClient_memoized (u p l u' p' l' : option string)
    (w : World) (c : JsValue) (w1 : World) :
  getBackendClient u p l w = (Return c, w1) →
  getBackendClient u' p' l' w1 = (Return c, w1) ∧
  (truthy (client w) = false →
   login_count (calls w1) = S (login_count (calls w))).
Proof.
  intros H.
  assert (Hc : truthy c = true ∧ client w1 = c).
  { destruct (truthy (client w)) eqn:Hset.
    - unfold getBackendClient in H.
      rewrite (bind_run read_client _ w (client w) w) in H by done.
      rewrite Hset in H. simpl in H. unfold read_client in H.
      by injection H as <- <-.
    - by destruct (getBackendClient_first _ _ _ _ _ _ Hset H) as (? & ? & _). }
  destruct Hc as [Htruthy Hclient]. split.
  - unfold getBackendClient.
    rewrite (bind_run read_client _ w1 (client w1) w1) by done.
    rewrite Hclient, Htruthy. simpl. unfold read_client. by rewrite Hclient.
  - intros Hunset. by destruct (getBackendClient_first _ _ _ _ _ _ Hunset H) as (_ & _ & _ & ?).
Qed.

(** ** Site configuration *)

Lemma try_catch_run {A : Type} (m : Js A) (handler : JsValue → Js A) (w : World)
    (a : A) (w1 : World) :
  m w = (Return a, w1) → try_catch m handler w = (Return a, w1).
Proof. intros H. unfold try_catch. by rewrite H. Qed.

Lemma try_catch_throw {A : Type} (m : Js A) (handler : JsValue → Js A) (w : World)
    (e : JsValue) (w1 : World) :
  m w = (Throw e, w1) → try_catch m handler w = handler e w1.
Proof. intros H. unfold try_catch. by rewrite H. Qed.

Lemma cell_insert (h : Heap) (l : loc) (c : HeapCell) : cell (<[l := c]> h) l = c.
Proof. unfold cell. by rewrite lookup_insert_eq. Qed.

Lemma cell_insert_ne (h : Heap) (l l' : loc) (c : HeapCell) :
  l ≠ l' → cell (<[l := c]> h) l' = cell h l'.
Proof. intros Hne. unfold cell. by rewrite lookup_insert_ne. Qed.

Lemma own_props_with_prop (k : string) (v : JsValue) (c : HeapCell) :
  own_props (with_prop k v c) = <[k := v]> (own_props c).
Proof. by destruct c. Qed.

Lemma get_opt_set (h : Heap) (l : loc) (k : string) (v : JsValue) :
  get_opt (<[l := with_prop k v (cell h l)]> h) (JRef l) k = v.
Proof.
  simpl. by rewrite cell_insert, own_props_with_prop, lookup_insert_eq.
Qed.

Lemma get_opt_set_ne (h : Heap) (l : loc) (k k' : string) (v x : JsValue) :
  k ≠ k' →
  get_opt (<[l := with_prop k v (cell h l)]> h) x k' = get_opt h x k'.
Proof.
  intros Hne. destruct x as [| | | | | | | l']; try done. simpl.
  destruct (decide (l = l')) as [<- | Hl].
  - by rewrite cell_insert, own_props_with_prop, lookup_insert_ne.
  - by rewrite cell_insert_ne.
Qed.

Lemma has_field_set (h : Heap) (l : loc) (k : string) (v : JsValue) :
  has_field (<[l := with_prop k v (cell h l)]> h) (JRef l) k = true.
Proof.
  simpl. rewrite cell_insert, own_props_with_prop, lookup_insert_eq.
  by apply bool_decide_eq_true.
Qed.

Lemma has_field_set_ne (h : Heap) (l : loc) (k k' : string) (v x : JsValue) :
  k ≠ k' →
  has_field (<[l := with_prop k v (cell h l)]> h) x k' = has_field h x k'.
Proof.
  intros Hne. destruct x as [| | | | | | | l']; try done. simpl.
  destruct (decide (l = l')) as [<- | Hl].
  - by rewrite cell_insert, own_props_with_prop, lookup_insert_ne.
  - by rewrite cell_insert_ne.
Qed.

(** A cell that has a property is in the store, and stays as it is when
    the store grows. *)
Lemma cell_extends (h h' : Heap) (l : loc) (k : string) (v : JsValue) :
  h ⊆ h' → own_props (cell h l) !! k = Some v → cell h' l = cell h l.
Proof.
  intros Hsub Hk. unfold cell in *.
  destruct (h !! l) as [c |] eqn:Hl; [| done].
  by rewrite (lookup_weaken _ _ _ _ Hl Hsub).
Qed.

(** A value with a string for one of its properties is a reference. *)
Lemma get_opt_string (h : Heap) (x : JsValue) (k s : string) :
  k ≠ "name" → k ≠ "message" →
  get_opt h x k = JString s →
  ∃ l, x = JRef l ∧ own_props (cell h l) !! k = Some (JString s).
Proof.
  intros Hname Hmessage H.
  destruct x as [| | | | | | en em | l]; try discriminate H.
  - simpl in H. apply String.eqb_neq in Hname, Hmessage.
    rewrite Hname, Hmessage in H. discriminate H.
  - exists l. split; [done |]. simpl in H.
    by destruct (own_props (cell h l) !! k); simplify_eq/=.
Qed.

(** The record is made anew when the response has no [global]. *)
Lemma site_config_empty (w : World) (c : JsValue) (w0 : World)
    (resp : JsValue) (w1 : World) :
  first_response w c w0 resp w1 →
  truthy (get_opt (heap w1) resp "global") = false →
  let l := fresh (dom (heap w1)) in
  let h := <[l := HObject ∅]> (heap w1) in
  getSiteConfig w =
    (Return (JRef l),
     mkWorld h (client w1)
       (console w1 ++ [NO_GLOBAL; debug_line h (JRef l)])%list
       (calls w1)).
Proof.
  intros [Hclient Hquery] Hglobal l h.
  unfold getSiteConfig.
  rewrite (bind_run _ _ _ _ _ Hclient).
  rewrite (bind_run _ _ _ resp w1) by by apply try_catch_run.
  set (wr := mkWorld h (client w1) (console w1 ++ [NO_GLOBAL]) (calls w1)).
  rewrite (bind_run _ _ w1 (JRef l) wr).
  2: { unfold bind at 1, get_heap at 1. by rewrite Hglobal. }
  rewrite (bind_run _ _ wr tt wr).
  2: { rewrite (bind_run _ _ wr JUndefined wr); [done |].
       unfold lift. simpl. unfold h. by rewrite cell_insert. }
  unfold bind, get_heap, print, ret, wr, debug_line. simpl. by rewrite <- app_assoc.
Qed.

(** The record is the response's [global] otherwise, and is returned as
    it is unless its service mode is ["maintenance"]. *)
Lemma site_config_plain (w : World) (c : JsValue) (w0 : World)
    (resp : JsValue) (w1 : World) :
  first_response w c w0 resp w1 →
  let result := get_opt (heap w1) resp "global" in
  truthy result = true →
  get_opt (heap w1) result "service_mode" ≠ JString "maintenance" →
  getSiteConfig w =
    (Return result,
     mkWorld (heap w1) (client w1)
       (console w1 ++ [debug_line (heap w1) result])%list (calls w1)).
Proof.
  intros [Hclient Hquery] result Hglobal Hmode.
  assert (Hresp : get_prop (heap w1) resp "global" = Return result).
  { destruct resp; try done. }
  assert (Hres : get_prop (heap w1) result "service_mode" =
                 Return (get_opt (heap w1) result "service_mode")).
  { destruct result; try done. }
  unfold getSiteConfig.
  rewrite (bind_run _ _ _ _ _ Hclient).
  rewrite (bind_run _ _ _ resp w1) by by apply try_catch_run.
  rewrite (bind_run _ _ w1 result w1).
  2: { unfold bind at 1, get_heap at 1. fold result. rewrite Hglobal.
       unfold lift. by rewrite Hresp. }
  rewrite (bind_run _ _ w1 tt w1).
  2: { rewrite (bind_run _ _ w1 (get_opt (heap w1) result "service_mode") w1).
       - unfold strict_equals. by rewrite bool_decide_eq_false_2.
       - unfold lift. by rewrite Hres. }
  unfold bind, get_heap, print, ret, debug_line. simpl. by destruct w1.
Qed.

(** The client that answered the first query still has its [query]
    method afterwards: a later query is settled by the host. *)
Lemma query_again (w : World) (c : JsValue) (w0 : World) (resp : JsValue) (w1 : World)
    (args : list JsValue) (wx : World) :
  first_response w c w0 resp w1 →
  heap wx = heap w1 →
  call_method c "query" args wx = host_call (mkCall "query" c args) wx.
Proof.
  intros [_ Hquery] Hheap.
  apply call_method_Return in Hquery as (lc & f & -> & Hf & Hcall); [| done].
  rewrite host_call_run in Hcall. injection Hcall as _ <-.
  apply (call_method_function lc f); [done |]. rewrite Hheap. simpl.
  by rewrite (cell_extends (heap w0) _ lc "query" (JFunction f))
    by (apply settle_extends || done).
Qed.

(** The record of a first response in maintenance mode is a reference
    to a cell of the store. *)
Lemma maintenance_record (h : Heap) (resp : JsValue) :
  get_opt h (get_opt h resp "global") "service_mode" = JString "maintenance" →
  ∃ l, get_opt h resp "global" = JRef l ∧
       get_prop h resp "global" = Return (JRef l) ∧
       own_props (cell h l) !! "service_mode" = Some (JString "maintenance").
Proof.
  intros Hmode.
  apply get_opt_string in Hmode as (l & Hresult & Hprop); [| done | done].
  exists l. split; [done |]. split; [| done].
  destruct resp; try discriminate Hresult; simpl; by f_equal.
Qed.

(** Runs [getSiteConfig] up to the maintenance query. *)
Ltac enter_maintenance Hclient Hquery Hresult Hget Hprop l :=
  unfold getSiteConfig;
  rewrite (bind_run _ _ _ _ _ Hclient);
  rewrite (bind_run _ _ _ _ _ (try_catch_run _ _ _ _ _ Hquery));
  rewrite (bind_run _ _ _ (JRef l) _)
    by (unfold bind at 1, get_heap at 1; rewrite Hresult; cbn [truthy];
        unfold lift; by rewrite Hget).

Lemma site_config_fail (w : World) (c : JsValue) (w0 : World)
    (resp : JsValue) (w1 : World) (e : JsValue) (h2 : Heap) :
  first_response w c w0 resp w1 →
  get_opt (heap w1) (get_opt (heap w1) resp "global") "service_mode"
    = JString "maintenance" →
  settle (calls w1) (maintenance_call c) (heap w1) = (Rejects e, h2) →
  let message := "Failed to retrieve maintenance mode config: " ++ ToString h2 e in
  getSiteConfig w =
    (Throw (Error message),
     mkWorld h2 (client w1)
       (console w1 ++ [MAINTENANCE_NOTICE; (Stderr, message)])%list
       (calls w1 ++ [maintenance_call c])%list).
Proof.
  intros Hfirst Hmode Hsettle message.
  pose proof Hfirst as [Hclient Hquery].
  destruct (maintenance_record _ _ Hmode) as (l & Hresult & Hget & Hprop).
  enter_maintenance Hclient Hquery Hresult Hget Hprop l.
  apply bind_throw.
  rewrite (bind_run _ _ w1 (JString "maintenance") w1)
    by (unfold lift; simpl; by rewrite Hprop).
  unfold strict_equals. rewrite bool_decide_eq_true_2 by done.
  set (w1' := mkWorld (heap w1) (client w1) (console w1 ++ [MAINTENANCE_NOTICE]) (calls w1)).
  rewrite (bind_run _ _ w1 tt w1') by done.
  apply bind_throw.
  rewrite (try_catch_throw _ _ w1' e
             (mkWorld h2 (client w1) (console w1') (calls w1 ++ [maintenance_call c]))).
  2: { rewrite (query_again _ _ _ _ _ _ w1' Hfirst) by done.
       rewrite host_call_run. simpl. fold (maintenance_call c). by rewrite Hsettle. }
  unfold bind, get_heap, print, throw. simpl. by rewrite <- app_assoc.
Qed.

Lemma merged_title (h : Heap) (l : loc) (resp : JsValue) :
  get_opt (merged h l resp) (JRef l) "maintenance_page_title" =
    get_opt h (get_opt h resp "global") "maintenance_page_title".
Proof. unfold merged. by rewrite get_opt_set_ne, get_opt_set. Qed.

Lemma merged_body (h : Heap) (l : loc) (resp : JsValue) :
  get_opt (merged h l resp) (JRef l) "maintenance_page_body" =
    get_opt h (get_opt h resp "global") "maintenance_page_body".
Proof. unfold merged. by rewrite get_opt_set, !get_opt_set_ne. Qed.

Lemma merged_has_fields (h : Heap) (l : loc) (resp : JsValue) :
  has_maintenance_fields (merged h l resp) (JRef l) = true.
Proof.
  unfold has_maintenance_fields, merged.
  by rewrite has_field_set_ne, !has_field_set.
Qed.

Lemma merged_other (h : Heap) (l : loc) (resp x : JsValue) (k : string) :
  k ≠ "maintenance_page_title" → k ≠ "maintenance_page_body" →
  get_opt (merged h l resp) x k = get_opt h x k.
Proof. intros H1 H2. unfold merged. by rewrite !get_opt_set_ne. Qed.

Lemma site_config_skip (w : World) (c : JsValue) (w0 : World)
    (resp : JsValue) (w1 : World) (resp2 : JsValue) (h2 : Heap) :
  first_response w c w0 resp w1 →
  let result := get_opt (heap w1) resp "global" in
  get_opt (heap w1) result "service_mode" = JString "maintenance" →
  settle (calls w1) (maintenance_call c) (heap w1) = (Resolves resp2, h2) →
  truthy (get_opt h2 resp2 "global") = false →
  getSiteConfig w =
    (Return result,
     mkWorld h2 (client w1)
       (console w1 ++ [MAINTENANCE_NOTICE; debug_line h2 result])%list
       (calls w1 ++ [maintenance_call c])%list).
Proof.
  intros Hfirst result Hmode Hsettle Hglobal. subst result.
  pose proof Hfirst as [Hclient Hquery].
  destruct (maintenance_record _ _ Hmode) as (l & Hresult & Hget & Hprop).
  enter_maintenance Hclient Hquery Hresult Hget Hprop l.
  set (w1' := mkWorld (heap w1) (client w1) (console w1 ++ [MAINTENANCE_NOTICE]) (calls w1)).
  set (w2 := mkWorld h2 (client w1) (console w1') (calls w1 ++ [maintenance_call c])).
  rewrite (bind_run _ _ w1 tt w2).
  2: { rewrite (bind_run _ _ w1 (JString "maintenance") w1)
         by (unfold lift; simpl; by rewrite Hprop).
       unfold strict_equals. rewrite bool_decide_eq_true_2 by done.
       rewrite (bind_run _ _ w1 tt w1') by done.
       rewrite (bind_run _ _ w1' resp2 w2).
       2: { apply try_catch_run.
            rewrite (query_again _ _ _ _ _ _ w1' Hfirst) by done.
            rewrite host_call_run. simpl. fold (maintenance_call c). by rewrite Hsettle. }
       unfold bind at 1, get_heap at 1. cbn [heap w2]. rewrite Hglobal.
       reflexivity. }
  rewrite Hresult.
  unfold bind, get_heap, print, ret, debug_line. simpl. by rewrite <- app_assoc.
Qed.

Lemma site_config_merge (w : World) (c : JsValue) (w0 : World)
    (resp : JsValue) (w1 : World) (resp2 : JsValue) (h2 : Heap) (l : loc) :
  first_response w c w0 resp w1 →
  get_opt (heap w1) resp "global" = JRef l →
  get_opt (heap w1) (JRef l) "service_mode" = JString "maintenance" →
  settle (calls w1) (maintenance_call c) (heap w1) = (Resolves resp2, h2) →
  truthy (get_opt h2 resp2 "global") = true →
  let h4 := merged h2 l resp2 in
  getSiteConfig w =
    (Return (JRef l),
     mkWorld h4 (client w1)
       (console w1 ++ [MAINTENANCE_NOTICE; debug_line h4 (JRef l)])%list
       (calls w1 ++ [maintenance_call c])%list).
Proof.
  intros Hfirst Hl Hmode Hsettle Hglobal h4.
  pose proof Hfirst as [Hclient Hquery].
  rewrite <- Hl in Hmode.
  destruct (maintenance_record _ _ Hmode) as (l' & Hresult & Hget & Hprop).
  assert (l' = l) as -> by congruence.
  enter_maintenance Hclient Hquery Hresult Hget Hprop l.
  set (w1' := mkWorld (heap w1) (client w1) (console w1 ++ [MAINTENANCE_NOTICE]) (calls w1)).
  set (w2 := mkWorld h2 (client w1) (console w1') (calls w1 ++ [maintenance_call c])).
  set (w4 := mkWorld h4 (client w1) (console w1') (calls w1 ++ [maintenance_call c])).
  assert (Hread : ∀ h x k, truthy x = true → get_prop h x k = Return (get_opt h x k)).
  { intros h x k Hx. by destruct x. }
  rewrite (bind_run _ _ w1 tt w4).
  2: { rewrite (bind_run _ _ w1 (JString "maintenance") w1)
         by (unfold lift; simpl; by rewrite Hprop).
       unfold strict_equals. rewrite bool_decide_eq_true_2 by done.
       rewrite (bind_run _ _ w1 tt w1') by done.
       rewrite (bind_run _ _ w1' resp2 w2).
       2: { apply try_catch_run.
            rewrite (query_again _ _ _ _ _ _ w1' Hfirst) by done.
            rewrite host_call_run. simpl. fold (maintenance_call c). by rewrite Hsettle. }
       unfold bind at 1, get_heap at 1. cbn [heap w2]. rewrite Hglobal.
       assert (Hresp2 : ∀ h, get_prop h resp2 "global" = Return (get_opt h resp2 "global")).
       { intros h. destruct resp2; try done. }
       unfold bind, lift, set_prop. cbn [heap w2].
       rewrite Hresp2, (Hread _ _ _ Hglobal). cbn [heap].
       rewrite Hresp2.
       assert (Hglobal' :
         get_opt (<[l := with_prop "maintenance_page_title"
                           (get_opt h2 (get_opt h2 resp2 "global") "maintenance_page_title")
                           (cell h2 l)]> h2) resp2 "global"
         = get_opt h2 resp2 "global") by by apply get_opt_set_ne.
       rewrite Hread by by rewrite Hglobal'.
       reflexivity. }
  unfold bind, get_heap, print, ret, debug_line. simpl. by rewrite <- app_assoc.
Qed.

(** C8.  When the site-configuration query answers without a [global]
    record, [getSiteConfig] writes its diagnostic to the error stream and
    goes on with a fresh, empty record, which it returns: nothing is
    raised and no further query is made. *)
Theorem getSiteConfig_without_global (w : World) (c : JsValue) (w0 : World)
    (resp : JsValue) (w1 : World) :
  getBackendClient None None None w = (Return c, w0) →
  call_method c "query" [JString SITE_CONFIG_QUERY] w0 = (Return resp, w1) →
  truthy (get_opt (heap w1) resp "global") = false →
  ∃ l w',
    getSiteConfig w = (Return (JRef l), w') ∧
    heap w1 !! l = None ∧
    heap w' = <[l := HObject ∅]> (heap w1) ∧
    console w' = (console w1 ++ [NO_GLOBAL; debug_line (heap w') (JRef l)])%list ∧
    calls w' = calls w1.
Proof.
  intros Hclient Hquery Hglobal.
  eexists _, _. split.
  - by apply (site_config_empty w c w0 resp w1).
  - simpl. split; [| done]. apply not_elem_of_dom, is_fresh.
Qed.

(** C10.  In maintenance mode, when the maintenance query is answered
    without a [global] record, [getSiteConfig] returns the record of the
    first response and raises nothing; the record is as the first
    response gave it, so it has no maintenance field that response did
    not have. *)
Theorem getSiteConfig_merge_skipped (w : World) (c : JsValue) (w0 : World)
    (resp : JsValue) (w1 : World) (resp2 : JsValue) (h2 : Heap) :
  getBackendClient None None None w = (Return c, w0) →
  call_method c "query" [JString SITE_CONFIG_QUERY] w0 = (Return resp, w1) →
  let result := get_opt (heap w1) resp "global" in
  get_opt (heap w1) result "service_mode" = JString "maintenance" →
  settle (calls w1) (maintenance_call c) (heap w1) = (Resolves resp2, h2) →
  truthy (get_opt h2 resp2 "global") = false →
  ∃ w',
    getSiteConfig w = (Return result, w') ∧
    (∀ k, has_field (heap w') result k = has_field (heap w1) result k) ∧
    (has_field (heap w1) result "maintenance_page_title" = false →
     has_field (heap w1) result "maintenance_page_body" = false →
     has_field (heap w') result "maintenance_page_title" = false ∧
     has_field (heap w') result "maintenance_page_body" = false).
Proof.
  intros Hclient Hquery result Hmode Hsettle Hglobal.
  eexists. split.
  { by apply (site_config_skip w c w0 resp w1 resp2 h2). }
  simpl.
  assert (Hsame : ∀ k, has_field h2 result k = has_field (heap w1) result k).
  { intros k. destruct (maintenance_record _ _ Hmode) as (l & Hl & _ & Hprop).
    subst result. rewrite Hl. simpl.
    replace h2 with (settle (calls w1) (maintenance_call c) (heap w1)).2
      by by rewrite Hsettle.
    by rewrite (cell_extends (heap w1) _ l _ _ (settle_extends _ _ _) Hprop). }
  split; [done |]. intros Htitle Hbody. by rewrite !Hsame.
Qed.

(** C9, as the code has it.  In maintenance mode the maintenance query is
    made.  When it is answered with a [global] record, the title and
    body of that record are assigned to the result; when it fails,
    [getSiteConfig] raises an [Error] carrying the failure. *)
Theorem getSiteConfig_maintenance (w : World) (c : JsValue) (w0 : World)
    (resp : JsValue) (w1 : World) :
  getBackendClient None None None w = (Return c, w0) →
  call_method c "query" [JString SITE_CONFIG_QUERY] w0 = (Return resp, w1) →
  let result := get_opt (heap w1) resp "global" in
  get_opt (heap w1) result "service_mode" = JString "maintenance" →
  match settle (calls w1) (maintenance_call c) (heap w1) with
  | (Resolves resp2, h2) =>
      truthy (get_opt h2 resp2 "global") = true →
      let global := get_opt h2 resp2 "global" in
      ∃ w',
        getSiteConfig w = (Return result, w') ∧
        calls w' = (calls w1 ++ [maintenance_call c])%list ∧
        has_maintenance_fields (heap w') result = true ∧
        get_opt (heap w') result "maintenance_page_title"
          = get_opt h2 global "maintenance_page_title" ∧
        get_opt (heap w') result "maintenance_page_body"
          = get_opt h2 global "maintenance_page_body"
  | (Rejects e, h2) =>
      ∃ w',
        getSiteConfig w =
          (Throw (Error ("Failed to retrieve maintenance mode config: " ++ ToString h2 e)),
           w') ∧
        calls w' = (calls w1 ++ [maintenance_call c])%list
  end.
Proof.
  intros Hclient Hquery result Hmode.
  destruct (settle (calls w1) (maintenance_call c) (heap w1)) as [[resp2 | e] h2] eqn:Hsettle.
  - intros Hglobal global.
    destruct (maintenance_record _ _ Hmode) as (l & Hl & _ & _).
    subst result. rewrite Hl in *.
    eexists. split.
    { by apply (site_config_merge w c w0 resp w1 resp2 h2 l). }
    simpl. split; [done |]. split; [apply merged_has_fields |].
    split; [apply merged_title | apply merged_body].
  - eexists. split.
    { by apply (site_config_fail w c w0 resp w1 e h2). }
    done.
Qed.

(** C3, as the code has it.  For a site-configuration response whose
    [global] record does not itself carry the maintenance fields, the
    record [getSiteConfig] returns has them exactly when its service mode
    is ["maintenance"] and the maintenance query was answered with a
    [global] record. *)
Theorem getSiteConfig_maintenance_fields (w : World) (c : JsValue) (w0 : World)
    (resp : JsValue) (w1 : World) (r : JsValue) (w' : World) :
  getBackendClient None None None w = (Return c, w0) →
  call_method c "query" [JString SITE_CONFIG_QUERY] w0 = (Return resp, w1) →
  has_maintenance_fields (heap w1) (get_opt (heap w1) resp "global") = false →
  getSiteConfig w = (Return r, w') →
  has_maintenance_fields (heap w') r = true ↔
    get_opt (heap w') r "service_mode" = JString "maintenance" ∧
    ∃ resp2 h2,
      settle (calls w1) (maintenance_call c) (heap w1) = (Resolves resp2, h2) ∧
      truthy (get_opt h2 resp2 "global") = true.
Proof.
  intros Hclient Hquery Hclean Hrun.
  assert (Hfirst : first_response w c w0 resp w1) by done.
  destruct (truthy (get_opt (heap w1) resp "global")) eqn:Hglobal.
  2: { (* no global: an empty record *)
       rewrite (site_config_empty _ _ _ _ _ Hfirst Hglobal) in Hrun.
       injection Hrun as <- <-. simpl.
       unfold has_maintenance_fields. simpl. rewrite !cell_insert. simpl.
       split; [done |]. by intros [[=] _]. }
  destruct (decide (get_opt (heap w1) (get_opt (heap w1) resp "global") "service_mode"
                    = JString "maintenance")) as [Hmode | Hmode].
  2: { (* not in maintenance: the record as answered *)
       rewrite (site_config_plain _ _ _ _ _ Hfirst Hglobal Hmode) in Hrun.
       injection Hrun as <- <-. simpl. rewrite Hclean.
       split; [done |]. by intros [? _]. }
  destruct (maintenance_record _ _ Hmode) as (l & Hl & _ & Hprop).
  destruct (settle (calls w1) (maintenance_call c) (heap w1)) as [[resp2 | e] h2] eqn:Hsettle.
  2: { by rewrite (site_config_fail _ _ _ _ _ _ _ Hfirst Hmode Hsettle) in Hrun. }
  assert (Hkept : cell h2 l = cell (heap w1) l).
  { replace h2 with (settle (calls w1) (maintenance_call c) (heap w1)).2
      by by rewrite Hsettle.
    by rewrite (cell_extends (heap w1) _ l _ _ (settle_extends _ _ _) Hprop). }
  destruct (truthy (get_opt h2 resp2 "global")) eqn:Hglobal2.
  - (* merged *)
    rewrite Hl in Hmode.
    rewrite (site_config_merge _ _ _ _ _ _ _ _ Hfirst Hl Hmode Hsettle Hglobal2) in Hrun.
    injection Hrun as <- <-. simpl heap.
    rewrite merged_has_fields. split; [| done]. intros _. split; [| eauto].
    rewrite merged_other by done. simpl. rewrite Hkept. by rewrite Hprop.
  - (* skipped *)
    rewrite (site_config_skip _ _ _ _ _ _ _ Hfirst Hmode Hsettle Hglobal2) in Hrun.
    injection Hrun as <- <-. simpl heap. rewrite Hl in *.
    unfold has_maintenance_fields in *. simpl in *. rewrite Hkept, Hclean.
    split; [done |]. intros [_ (? & ? & [= <- <-] & ?)]. congruence.
Qed.

(** ** Pages *)

Lemma shift_array (l : loc) (items : list JsValue) (props : gmap string JsValue)
    (w : World) :
  heap w !! l = Some (HArray items props) →
  props !! "shift" = None →
  call_method (JRef l) "shift" [] w =
    (Return (default JUndefined (head items)),
     mkWorld (<[l := HArray (tail items) props]> (heap w))
             (client w) (console w) (calls w)).
Proof.
  intros Hl Hown.
  assert (Hcell : cell (heap w) l = HArray items props) by (unfold cell; by rewrite Hl).
  unfold call_method, bind, lift, get_heap, finds_Array_shift, Array_shift. simpl.
  rewrite Hcell, Hown. simpl. rewrite Hcell.
  destruct items as [| x rest]; simpl; [| done].
  rewrite insert_id by done. by destruct w.
Qed.

(** C6.  When the page query is answered with a list of pages,
    [getPage] returns the first element of that list, or [undefined] when
    the list is empty, and raises nothing.  The store changes at the list
    alone, which loses its first element: the page returned is the
    element itself, its cell untouched. *)
Theorem getPage_takes_first (slug : string) (query : option string)
    (w : World) (c : JsValue) (w0 : World) (resp : JsValue) (w1 : World)
    (lp : loc) (items : list JsValue) (props : gmap string JsValue) :
  getBackendClient None None None w = (Return c, w0) →
  call_method c "query"
    [JString (String_replace (default PAGE_QUERY query) "{{slug}}" slug)] w0
    = (Return resp, w1) →
  get_opt (heap w1) resp "page" = JRef lp →
  heap w1 !! lp = Some (HArray items props) →
  props !! "shift" = None →
  getPage slug query w =
    (Return (default JUndefined (head items)),
     mkWorld (<[lp := HArray (tail items) props]> (heap w1))
             (client w1) (console w1) (calls w1)).
Proof.
  intros Hclient Hquery Hpage Hlp Hown.
  unfold getPage.
  rewrite (bind_run _ _ _ _ _ Hclient).
  erewrite bind_run; [reflexivity |].
  apply try_catch_run.
  rewrite (bind_run _ _ _ _ _ Hquery).
  rewrite (bind_run _ _ w1 (JRef lp) w1).
  - by apply shift_array.
  - unfold lift. rewrite <- Hpage. by destruct resp.
Qed.

End Runs.

(** ** Worked runs *)

Abbreviation boot := Mock.boot.

Abbreviation connect host := (getBackendClient (host := host) None None None boot).

(** *** The client provider *)

(** The arguments play no part. *)
Lemma getBackendClient_ignores_arguments `{host : Host} (u p l : option string) :
  getBackendClient u p l = getBackendClient None None None.
Proof. reflexivity. Qed.

(** A client that is set is returned as it is, logged in or not. *)
Lemma getBackendClient_set `{host : Host} (u p l : option string) (w : World) :
  truthy (client w) = true → getBackendClient u p l w = (Return (client w), w).
Proof.
  intros Hset. unfold getBackendClient.
  rewrite (bind_run read_client _ w (client w) w) by done.
  by rewrite Hset.
Qed.

(** C1.  With the password changed at the backend, the first call raises
    the [Error] whose message embeds the serialised rejection, as
    specified; but the client was stored before the login, so it stays
    memoized: the second call returns it, not logged in, and makes no
    second login. *)
Theorem getBackendClient_failure_memoized :
  let first := connect Scenario.changed_password in
  let second := getBackendClient (host := Scenario.changed_password) None None None first.2 in
  first.1 = Throw (Error "Failed to log into backend: {}") ∧
  client first.2 = JRef 6 ∧
  login_count (calls first.2) = 1 ∧
  second.1 = Return (JRef 6) ∧
  login_count (calls second.2) = 1.
Proof. vm_compute. done. Qed.

(** C4.  Called with an editor's account and another address, the first
    invocation builds the client for the configured address and logs in
    with the configured account: the backend, which knows the editor
    only, rejects the login. *)
Theorem getBackendClient_arguments_unused :
  let run := getBackendClient (host := Scenario.editors_only)
               (Some "editor") (Some "s3cret") (Some "https://cms.example.org") boot in
  head (calls run.2) = Some (mkCall "createDirectus" JUndefined [JString "http://localhost:8055"]) ∧
  last (calls run.2) = Some (mkCall "login" (JRef 6) [JString "admin"; JString "password"]) ∧
  run.1 = Throw (Error "Failed to log into backend: {}").
Proof. vm_compute. done. Qed.

(** The client the SDK builds passes the capability check; the core
    client, before its extensions, does not. *)
Example built_client_is_DirectusClient :
  let w1 := (connect Scenario.normal_site).2 in
  isDirectusClient (heap w1) (JRef 6) = Return true ∧
  isDirectusClient (heap w1) (JRef 0) = Return false.
Proof. by vm_compute. Qed.

(** The memoization at work: a first call on the normal site, a second
    one with other arguments. *)
Lemma getBackendClient_memoized_witness :
  let host := Scenario.normal_site in
  let w1 := (connect host).2 in
  connect host = (Return (JRef 6), w1) ∧
  getBackendClient (Some "editor") (Some "s3cret") None w1 = (Return (JRef 6), w1) ∧
  login_count (calls w1) = 1.
Proof.
  intros host w1.
  assert (H : connect host = (Return (JRef 6), w1)) by (vm_compute; reflexivity).
  split; [exact H |].
  destruct (getBackendClient_memoized None None None (Some "editor") (Some "s3cret") None
              _ _ _ H) as [Hsame Hcount].
  split; [exact Hsame | exact (Hcount eq_refl)].
Defined.

(** *** Pages *)

(** The query for a slug, as the specification describes it. *)
Example literal_query :
  substitute_literally PAGE_QUERY "{{slug}}" "foo-bar" =
"{
  page(filter: { slug: { _eq: " ++ dquote ++ "foo-bar" ++ dquote ++ " } }) {
      slug
      title
      script
      content
      style
  }
}".
Proof. reflexivity. Qed.

(** C7.  For the slug [$&] the query sent is the template itself, the
    placeholder still in it: in a replacement text [$&] stands for the
    matched text.  The literal replacement is another string. *)
Theorem getPage_dollar_slug :
  issued_queries (calls (getPage (host := Scenario.one_page) "$&" None boot).2)
    = [JString PAGE_QUERY] ∧
  PAGE_QUERY ≠ substitute_literally PAGE_QUERY "{{slug}}" "$&".
Proof. split; [by vm_compute | by vm_compute]. Qed.

(** The page fetcher at work: one page matches [about]. *)
Lemma getPage_takes_first_witness :
  let host := Scenario.one_page in
  let w0 := (connect host).2 in
  let text := String_replace PAGE_QUERY "{{slug}}" "about" in
  let w1 := (call_method (JRef 6) "query" [JString text] w0).2 in
  connect host = (Return (JRef 6), w0) ∧
  call_method (JRef 6) "query" [JString text] w0 = (Return (JRef 9), w1) ∧
  get_opt (heap w1) (JRef 9) "page" = JRef 8 ∧
  heap w1 !! 8 = Some (HArray [JRef 7] ∅) ∧
  (∅ : gmap string JsValue) !! "shift" = None ∧
  getPage "about" None boot =
    (Return (JRef 7),
     mkWorld (<[8 := HArray [] ∅]> (heap w1)) (client w1) (console w1) (calls w1)).
Proof.
  intros host w0 text w1.
  assert (H0 : connect host = (Return (JRef 6), w0)) by (vm_compute; reflexivity).
  assert (H1 : call_method (JRef 6) "query" [JString text] w0 = (Return (JRef 9), w1))
    by (vm_compute; reflexivity).
  assert (H2 : get_opt (heap w1) (JRef 9) "page" = JRef 8) by (vm_compute; reflexivity).
  assert (H3 : heap w1 !! 8 = Some (HArray [JRef 7] ∅)) by (vm_compute; reflexivity).
  assert (H4 : (∅ : gmap string JsValue) !! "shift" = None) by reflexivity.
  split; [exact H0 |]. split; [exact H1 |]. split; [exact H2 |].
  split; [exact H3 |]. split; [exact H4 |].
  exact (getPage_takes_first "about" None boot _ _ _ _ 8 [JRef 7] ∅ H0 H1 H2 H3 H4).
Defined.

(** No page matches: [undefined], and nothing raised. *)
Example getPage_no_match :
  (getPage (host := Scenario.no_page) "missing" None boot).1 = Return JUndefined.
Proof. by vm_compute. Qed.

(** An answer without a list of pages is outside the theorem: reading
    [shift] of [undefined] raises inside the [try], and the [TypeError]
    is wrapped like a failed query. *)
Example getPage_without_list :
  (getPage (host := Scenario.page_without_list) "about" None boot).1 =
    Throw (Error "failed to retrieve page: {}").
Proof. by vm_compute. Qed.

(** *** Site configuration *)

(** The fallback at work: the first answer is an empty object. *)
Lemma getSiteConfig_without_global_witness :
  let host := Scenario.site_without_global in
  let w0 := (connect host).2 in
  let w1 := (call_method (JRef 6) "query" [JString SITE_CONFIG_QUERY] w0).2 in
  connect host = (Return (JRef 6), w0) ∧
  call_method (JRef 6) "query" [JString SITE_CONFIG_QUERY] w0 = (Return (JRef 7), w1) ∧
  truthy (get_opt (heap w1) (JRef 7) "global") = false ∧
  ∃ l w',
    getSiteConfig boot = (Return (JRef l), w') ∧
    heap w1 !! l = None ∧
    heap w' = <[l := HObject ∅]> (heap w1) ∧
    console w' = (console w1 ++ [NO_GLOBAL; debug_line (heap w') (JRef l)])%list ∧
    calls w' = calls w1.
Proof.
  intros host w0 w1.
  assert (H0 : connect host = (Return (JRef 6), w0)) by (vm_compute; reflexivity).
  assert (H1 : call_method (JRef 6) "query" [JString SITE_CONFIG_QUERY] w0
               = (Return (JRef 7), w1)) by (vm_compute; reflexivity).
  assert (H2 : truthy (get_opt (heap w1) (JRef 7) "global") = false)
    by (vm_compute; reflexivity).
  split; [exact H0 |]. split; [exact H1 |]. split; [exact H2 |].
  exact (getSiteConfig_without_global boot _ _ _ _ H0 H1 H2).
Defined.

(** The skipped merge at work: the maintenance answer has [global: null]. *)
Lemma getSiteConfig_merge_skipped_witness :
  let host := Scenario.maintenance_null_text in
  let w0 := (connect host).2 in
  let w1 := (call_method (JRef 6) "query" [JString SITE_CONFIG_QUERY] w0).2 in
  let h2 := (settle (calls w1) (maintenance_call (JRef 6)) (heap w1)).2 in
  connect host = (Return (JRef 6), w0) ∧
  call_method (JRef 6) "query" [JString SITE_CONFIG_QUERY] w0 = (Return (JRef 9), w1) ∧
  get_opt (heap w1) (get_opt (heap w1) (JRef 9) "global") "service_mode"
    = JString "maintenance" ∧
  settle (calls w1) (maintenance_call (JRef 6)) (heap w1) = (Resolves (JRef 10), h2) ∧
  truthy (get_opt h2 (JRef 10) "global") = false ∧
  has_field (heap w1) (JRef 8) "maintenance_page_title" = false ∧
  has_field (heap w1) (JRef 8) "maintenance_page_body" = false ∧
  ∃ w',
    getSiteConfig boot = (Return (JRef 8), w') ∧
    has_field (heap w') (JRef 8) "maintenance_page_title" = false ∧
    has_field (heap w') (JRef 8) "maintenance_page_body" = false.
Proof.
  intros host w0 w1 h2.
  assert (H0 : connect host = (Return (JRef 6), w0)) by (vm_compute; reflexivity).
  assert (H1 : call_method (JRef 6) "query" [JString SITE_CONFIG_QUERY] w0
               = (Return (JRef 9), w1)) by (vm_compute; reflexivity).
  assert (H2 : get_opt (heap w1) (get_opt (heap w1) (JRef 9) "global") "service_mode"
               = JString "maintenance") by (vm_compute; reflexivity).
  assert (H3 : settle (calls w1) (maintenance_call (JRef 6)) (heap w1)
               = (Resolves (JRef 10), h2)) by (vm_compute; reflexivity).
  assert (H4 : truthy (get_opt h2 (JRef 10) "global") = false) by (vm_compute; reflexivity).
  assert (H5 : has_field (heap w1) (JRef 8) "maintenance_page_title" = false)
    by (vm_compute; reflexivity).
  assert (H6 : has_field (heap w1) (JRef 8) "maintenance_page_body" = false)
    by (vm_compute; reflexivity).
  split; [exact H0 |]. split; [exact H1 |]. split; [exact H2 |].
  split; [exact H3 |]. split; [exact H4 |]. split; [exact H5 |]. split; [exact H6 |].
  destruct (getSiteConfig_merge_skipped boot _ _ _ _ _ _ H0 H1 H2 H3 H4)
    as (w' & Hrun & _ & Hnone).
  exists w'. split; [exact Hrun | exact (Hnone H5 H6)].
Defined.

(** The merge at work: title and body arrive in the record. *)
Lemma getSiteConfig_maintenance_witness :
  let host := Scenario.site_in_maintenance in
  let w0 := (connect host).2 in
  let w1 := (call_method (JRef 6) "query" [JString SITE_CONFIG_QUERY] w0).2 in
  connect host = (Return (JRef 6), w0) ∧
  call_method (JRef 6) "query" [JString SITE_CONFIG_QUERY] w0 = (Return (JRef 9), w1) ∧
  get_opt (heap w1) (get_opt (heap w1) (JRef 9) "global") "service_mode"
    = JString "maintenance" ∧
  ∃ w',
    getSiteConfig boot = (Return (JRef 8), w') ∧
    calls w' = (calls w1 ++ [maintenance_call (JRef 6)])%list ∧
    has_maintenance_fields (heap w') (JRef 8) = true ∧
    get_opt (heap w') (JRef 8) "maintenance_page_title" = JString "Down for maintenance" ∧
    get_opt (heap w') (JRef 8) "maintenance_page_body" = JString "Back soon.".
Proof.
  intros host w0 w1.
  assert (H0 : connect host = (Return (JRef 6), w0)) by (vm_compute; reflexivity).
  assert (H1 : call_method (JRef 6) "query" [JString SITE_CONFIG_QUERY] w0
               = (Return (JRef 9), w1)) by (vm_compute; reflexivity).
  assert (H2 : get_opt (heap w1) (get_opt (heap w1) (JRef 9) "global") "service_mode"
               = JString "maintenance") by (vm_compute; reflexivity).
  split; [exact H0 |]. split; [exact H1 |]. split; [exact H2 |].
  pose proof (getSiteConfig_maintenance boot _ _ _ _ H0 H1 H2) as Hrun.
  assert (H3 : settle (calls w1) (maintenance_call (JRef 6)) (heap w1)
               = (Resolves (JRef 11),
                  (settle (calls w1) (maintenance_call (JRef 6)) (heap w1)).2))
    by (vm_compute; reflexivity).
  rewrite H3 in Hrun.
  destruct (Hrun ltac:(vm_compute; reflexivity)) as (w' & Hw' & Hcalls & Hhas & Htitle & Hbody).
  exists w'. split; [exact Hw' |]. split; [exact Hcalls |]. split; [exact Hhas |].
  split; (etrans; [eassumption | vm_compute; reflexivity]).
Defined.

(** The maintenance query failing: an [Error], and no record. *)
Example getSiteConfig_maintenance_failure :
  (getSiteConfig (host := Scenario.maintenance_failing) boot).1 =
    Throw (Error "Failed to retrieve maintenance mode config: Error: permission denied").
Proof. by vm_compute. Qed.

(** Against C9 taken for every run: in maintenance mode, with the
    maintenance query answered by an empty object, both queries are made,
    a record is returned, and neither field is in it. *)
Lemma maintenance_fields_not_merged :
  let run := getSiteConfig (host := Scenario.maintenance_no_text) boot in
  run.1 = Return (JRef 8) ∧
  get_opt (heap run.2) (JRef 8) "service_mode" = JString "maintenance" ∧
  issued_queries (calls run.2)
    = [JString SITE_CONFIG_QUERY; JString MAINTENANCE_MODE_QUERY] ∧
  has_field (heap run.2) (JRef 8) "maintenance_page_title" = false ∧
  has_field (heap run.2) (JRef 8) "maintenance_page_body" = false.
Proof. vm_compute. done. Qed.

(** Against C3 taken for every record: with the maintenance query
    answered by [global: null], the record returned is in maintenance
    mode and has no maintenance fields. *)
Lemma maintenance_mode_without_fields :
  let run := getSiteConfig (host := Scenario.maintenance_null_text) boot in
  run.1 = Return (JRef 8) ∧
  ¬ (has_maintenance_fields (heap run.2) (JRef 8) = true ↔
     get_opt (heap run.2) (JRef 8) "service_mode" = JString "maintenance").
Proof.
  split; [by vm_compute |].
  intros [_ Hif].
  assert (Hmode : get_opt (heap (getSiteConfig (host := Scenario.maintenance_null_text) boot).2)
                    (JRef 8) "service_mode" = JString "maintenance") by by vm_compute.
  apply Hif in Hmode. by vm_compute in Hmode.
Qed.

(** The equivalence at work, on the site in maintenance. *)
Lemma getSiteConfig_maintenance_fields_witness :
  let host := Scenario.site_in_maintenance in
  let w0 := (connect host).2 in
  let w1 := (call_method (JRef 6) "query" [JString SITE_CONFIG_QUERY] w0).2 in
  let w' := (getSiteConfig boot).2 in
  connect host = (Return (JRef 6), w0) ∧
  call_method (JRef 6) "query" [JString SITE_CONFIG_QUERY] w0 = (Return (JRef 9), w1) ∧
  has_maintenance_fields (heap w1) (get_opt (heap w1) (JRef 9) "global") = false ∧
  getSiteConfig boot = (Return (JRef 8), w') ∧
  (has_maintenance_fields (heap w') (JRef 8) = true ↔
     get_opt (heap w') (JRef 8) "service_mode" = JString "maintenance" ∧
     ∃ resp2 h2,
       settle (calls w1) (maintenance_call (JRef 6)) (heap w1) = (Resolves resp2, h2) ∧
       truthy (get_opt h2 resp2 "global") = true).
Proof.
  intros host w0 w1 w'.
  assert (H0 : connect host = (Return (JRef 6), w0)) by (vm_compute; reflexivity).
  assert (H1 : call_method (JRef 6) "query" [JString SITE_CONFIG_QUERY] w0
               = (Return (JRef 9), w1)) by (vm_compute; reflexivity).
  assert (H2 : has_maintenance_fields (heap w1) (get_opt (heap w1) (JRef 9) "global") = false)
    by (vm_compute; reflexivity).
  assert (H3 : getSiteConfig boot = (Return (JRef 8), w')) by (vm_compute; reflexivity).
  split; [exact H0 |]. split; [exact H1 |]. split; [exact H2 |]. split; [exact H3 |].
  exact (getSiteConfig_maintenance_fields boot _ _ _ _ _ _ H0 H1 H2 H3).
Defined.


(** * Further properties of the modules *)

(** ** The substitution of [getPage] *)

Lemma prefix_append (pat rest : string) : String.prefix pat (pat ++ rest) = true.
Proof.
  induction pat as [| c pat IH]; [by destruct rest |].
  change (String.prefix (String c pat) (String c (pat ++ rest)) = true).
  simpl. by destruct (Ascii.ascii_dec c c).
Qed.

Lemma find_first_prefix (pat s : string) :
  String.prefix pat s = true → ∃ after, find_first pat s = Some ("", after).
Proof.
  intros Hp. destruct s as [| c s].
  - destruct pat; [| done]. by eexists.
  - rewrite find_first_cons, Hp. by eexists.
Qed.

(** [find_first] finds the pattern wherever it occurs. *)
Lemma find_first_complete (pat s b a : string) :
  s = b ++ pat ++ a → ∃ before after, find_first pat s = Some (before, after).
Proof.
  revert s. induction b as [| c b IH]; intros s ->.
  - destruct (find_first_prefix pat (pat ++ a) (prefix_append _ _)) as [after H].
    by exists "", after.
  - change (String c b ++ pat ++ a) with (String c (b ++ pat ++ a)).
    rewrite find_first_cons.
    destruct (String.prefix pat (String c (b ++ pat ++ a))); [by eexists _, _ |].
    destruct (IH _ eq_refl) as (before & after & ->). by eexists _, _.
Qed.

(** The occurrence it finds is the leftmost. *)
Lemma find_first_leftmost (pat s before after b a : string) :
  find_first pat s = Some (before, after) →
  s = b ++ pat ++ a →
  (String.length before ≤ String.length b)%nat.
Proof.
  revert before b. induction s as [| c s IH]; intros before b Hfind Hs.
  - destruct pat; [| done]. injection Hfind as <- <-. simpl. lia.
  - rewrite find_first_cons in Hfind.
    destruct (String.prefix pat (String c s)) eqn:Hp.
    { injection Hfind as <- <-. simpl. lia. }
    destruct (find_first pat s) as [[b0 a0] |] eqn:Hrec; [| done].
    injection Hfind as <- <-.
    destruct b as [| c' b].
    + change ("" ++ pat ++ a) with (pat ++ a) in Hs.
      rewrite Hs, prefix_append in Hp. done.
    + change (String c s = String c' (b ++ pat ++ a)) in Hs.
      injection Hs as -> Hs. simpl.
      specialize (IH b0 b eq_refl Hs). lia.
Qed.

(** X16.  Of a template in which the placeholder occurs, [replace] changes the
    leftmost occurrence and nothing else: for a replacement text without
    a dollar sign the result is what precedes that occurrence, the text,
    and what follows, later occurrences included. *)
Theorem String_replace_leftmost (template placeholder text b a : string) :
  template = b ++ placeholder ++ a →
  dollar_free text = true →
  ∃ before after,
    template = before ++ placeholder ++ after ∧
    (∀ b' a', template = b' ++ placeholder ++ a' →
              (String.length before ≤ String.length b')%nat) ∧
    String_replace template placeholder text = before ++ text ++ after.
Proof.
  intros Hoccurs Hfree.
  destruct (find_first_complete _ _ _ _ Hoccurs) as (before & after & Hfind).
  exists before, after. split; [by apply find_first_split |]. split.
  - intros b' a' Hs. by apply (find_first_leftmost placeholder template before after b' a').
  - unfold String_replace. rewrite Hfind. by rewrite GetSubstitution_dollar_free.
Qed.

(** X17.  A template in which the placeholder does not occur comes back as it
    is, whatever the replacement text. *)
Theorem String_replace_absent (template placeholder text : string) :
  (∀ b a, template ≠ b ++ placeholder ++ a) →
  String_replace template placeholder text = template.
Proof.
  intros Habsent. unfold String_replace.
  destruct (find_first placeholder template) as [[before after] |] eqn:Hfind; [| done].
  by apply find_first_split, Habsent in Hfind.
Qed.

(** ** What the fetchers leave alone *)

Section Quiet.

Context `{host : Host}.

(** Code that does not assign the client and makes no [login] call,
    however it ends. *)
Definition quiet {A : Type} (m : Js A) : Prop :=
  ∀ w r w', m w = (r, w') →
    client w' = client w ∧ login_count (calls w') = login_count (calls w).

Lemma quiet_ret {A : Type} (a : A) : quiet (ret a).
Proof. by intros w r w' [= <- <-]. Qed.

Lemma quiet_throw {A : Type} (e : JsValue) : quiet (throw (A := A) e).
Proof. by intros w r w' [= <- <-]. Qed.

Lemma quiet_get_heap : quiet get_heap.
Proof. by intros w r w' [= <- <-]. Qed.

Lemma quiet_lift {A : Type} (f : Heap → Completion A) : quiet (lift f).
Proof. by intros w r w' [= <- <-]. Qed.

Lemma quiet_print (s : Stream) (message : string) : quiet (print s message).
Proof. by intros w r w' [= <- <-]. Qed.

Lemma quiet_alloc (c : HeapCell) : quiet (alloc c).
Proof. by intros w r w' [= <- <-]. Qed.

Lemma quiet_set_prop (target : JsValue) (k : string) (v : JsValue) :
  quiet (set_prop target k v).
Proof. intros w r w'. unfold set_prop. destruct target; by intros [= <- <-]. Qed.

Lemma quiet_Array_shift (this : JsValue) : quiet (Array_shift this).
Proof.
  intros w r w'. unfold Array_shift.
  repeat case_match; by intros [= <- <-].
Qed.

Lemma quiet_bind {A B : Type} (m : Js A) (k : A → Js B) :
  quiet m → (∀ a, quiet (k a)) → quiet (bind m k).
Proof.
  intros Hm Hk w r w' H.
  apply bind_cases in H as [(e & H & _) | (a & w1 & H & H')].
  - by apply Hm in H.
  - apply Hm in H as [? ?]. apply Hk in H' as [? ?]. split; congruence.
Qed.

Lemma quiet_try_catch {A : Type} (m : Js A) (handler : JsValue → Js A) :
  quiet m → (∀ e, quiet (handler e)) → quiet (try_catch m handler).
Proof.
  intros Hm Hh w r w' H. unfold try_catch in H.
  destruct (m w) as [[a | e] w1] eqn:Hrun.
  - injection H as <- <-. exact (Hm _ _ _ Hrun).
  - apply Hm in Hrun as [? ?]. apply Hh in H as [? ?]. split; congruence.
Qed.

Lemma quiet_call_method (this : JsValue) (name : string) (args : list JsValue) :
  name ≠ "login" → quiet (call_method this name args).
Proof.
  intros Hname%String.eqb_neq. unfold call_method.
  apply quiet_bind; [apply quiet_lift | intros f].
  apply quiet_bind; [apply quiet_get_heap | intros h].
  destruct (finds_Array_shift h this name); [apply quiet_Array_shift |].
  unfold invoke. destruct f; try apply quiet_throw.
  intros w r w' H. apply host_call_logins in H as [? ?]; [done | exact Hname].
Qed.

(** Steps through module code built from the quiet operations. *)
Ltac quiet_steps :=
  repeat first
    [ apply quiet_ret | apply quiet_throw | apply quiet_get_heap | apply quiet_lift
    | apply quiet_print | apply quiet_alloc | apply quiet_set_prop
    | apply quiet_call_method; [discriminate]
    | apply quiet_bind; [| intros ?]
    | apply quiet_try_catch; [| intros ?]
    | match goal with |- quiet (if ?b then _ else _) => destruct b end ].

(** A call that returns leaves the client it returns in place. *)
Lemma getBackendClient_Return (u p l : option string) (w : World) (c : JsValue) (w1 : World) :
  getBackendClient u p l w = (Return c, w1) → truthy c = true ∧ client w1 = c.
Proof.
  intros H. destruct (truthy (client w)) eqn:Hset.
  - rewrite getBackendClient_set in H by done. by injection H as <- <-.
  - by destruct (getBackendClient_first _ _ _ _ _ _ Hset H) as (? & ? & _).
Qed.

Lemma getSiteConfig_after_client (w : World) (c : JsValue) (w0 : World)
    (r : Completion JsValue) (w' : World) :
  getBackendClient None None None w = (Return c, w0) →
  getSiteConfig w = (r, w') →
  client w' = client w0 ∧ login_count (calls w') = login_count (calls w0).
Proof.
  intros Hclient. unfold getSiteConfig.
  rewrite (bind_run _ _ _ _ _ Hclient).
  match goal with
  | |- ?m w0 = _ → _ => assert (Hq : quiet m); [| intros H; exact (Hq _ _ _ H)]
  end.
  quiet_steps.
Qed.

Lemma getPage_after_client (slug : string) (query : option string)
    (w : World) (c : JsValue) (w0 : World) (r : Completion JsValue) (w' : World) :
  getBackendClient None None None w = (Return c, w0) →
  getPage slug query w = (r, w') →
  client w' = client w0 ∧ login_count (calls w') = login_count (calls w0).
Proof.
  intros Hclient. unfold getPage.
  rewrite (bind_run _ _ _ _ _ Hclient).
  match goal with
  | |- ?m w0 = _ → _ => assert (Hq : quiet m); [| intros H; exact (Hq _ _ _ H)]
  end.
  quiet_steps.
Qed.

Lemma call_method_calls (this : JsValue) (name : string) (args : list JsValue)
    (w : World) (r : Completion JsValue) (w' : World) :
  call_method this name args w = (r, w') →
  calls w' = calls w ∨ calls w' = (calls w ++ [mkCall name this args])%list.
Proof.
  unfold call_method, bind, lift, get_heap.
  destruct (get_prop (heap w) this name) as [f | e]; [| intros [= <- <-]; by left].
  destruct (finds_Array_shift (heap w) this name).
  - unfold Array_shift. repeat case_match; intros [= <- <-]; by left.
  - unfold invoke. destruct f; try (intros [= <- <-]; by left).
    rewrite host_call_run. intros [= <- <-]. by right.
Qed.

Lemma issued_queries_app (cs cs' : list Call) :
  issued_queries (cs ++ cs') = (issued_queries cs ++ issued_queries cs')%list.
Proof. apply omap_app. Qed.

(** The [try] block of [getPage]: one query at most, the one for [text]. *)
Lemma page_block_queries (c : JsValue) (text : string) (w : World)
    (r : Completion JsValue) (w' : World) :
  (let* resp := call_method c "query" [JString text] in
   let* page := lift (fun h => get_prop h resp "page") in
   call_method page "shift" []) w = (r, w') →
  issued_queries (calls w') = issued_queries (calls w) ∨
  issued_queries (calls w') = (issued_queries (calls w) ++ [JString text])%list.
Proof.
  intros H.
  assert (Hquery : ∀ x w1, call_method c "query" [JString text] w = (x, w1) →
            issued_queries (calls w1) = issued_queries (calls w) ∨
            issued_queries (calls w1) = (issued_queries (calls w) ++ [JString text])%list).
  { intros x w1 [-> | ->]%call_method_calls; [by left | right].
    by rewrite issued_queries_app. }
  apply bind_cases in H as [(e & H & _) | (resp & w1 & H & H')]; [by eapply Hquery |].
  apply Hquery in H.
  apply bind_cases in H' as [(e & H' & _) | (page & w2 & H' & H'')].
  { unfold lift in H'. by injection H' as _ <-. }
  unfold lift in H'. assert (w2 = w1) as -> by (by injection H').
  apply call_method_calls in H'' as [-> | ->]; [done |].
  rewrite issued_queries_app. simpl. by rewrite app_nil_r.
Qed.

(** X11.  With a client in place [getSiteConfig] neither logs in nor replaces
    the client, however it ends: by an answer, or by a failure of either
    query. *)
Theorem getSiteConfig_keeps_client (w : World) (r : Completion JsValue) (w' : World) :
  truthy (client w) = true →
  getSiteConfig w = (r, w') →
  client w' = client w ∧ login_count (calls w') = login_count (calls w).
Proof.
  intros Hset.
  by apply getSiteConfig_after_client with (c := client w), getBackendClient_set.
Qed.

(** X12.  With a client in place [getPage] neither logs in nor replaces the
    client, and sends at most one query, the template with the slug
    substituted, however it ends. *)
Theorem getPage_keeps_client (slug : string) (query : option string)
    (w : World) (r : Completion JsValue) (w' : World) :
  truthy (client w) = true →
  getPage slug query w = (r, w') →
  let text := JString (String_replace (default PAGE_QUERY query) "{{slug}}" slug) in
  client w' = client w ∧
  login_count (calls w') = login_count (calls w) ∧
  (issued_queries (calls w') = issued_queries (calls w) ∨
   issued_queries (calls w') = (issued_queries (calls w) ++ [text])%list).
Proof.
  intros Hset H text.
  pose proof (getBackendClient_set None None None w Hset) as Hclient.
  destruct (getPage_after_client _ _ _ _ _ _ _ Hclient H) as [Hc Hl].
  split; [done |]. split; [done |].
  unfold getPage in H. rewrite (bind_run _ _ _ _ _ Hclient) in H.
  assert (Hend : ∃ x w1,
    (let* resp := call_method (client w) "query"
                    [JString (String_replace (default PAGE_QUERY query) "{{slug}}" slug)] in
     let* page := lift (fun h => get_prop h resp "page") in
     call_method page "shift" []) w = (x, w1) ∧ calls w' = calls w1).
  { unfold bind at 1, try_catch in H.
    match type of H with context [match ?m w with _ => _ end] =>
      destruct (m w) as [[a | e] w1] eqn:Hblock end.
    - unfold ret in H. injection H as _ <-. eauto.
    - unfold bind, get_heap, throw in H. injection H as _ <-. eauto. }
  destruct Hend as (x & w1 & Hblock & ->).
  by apply page_block_queries in Hblock.
Qed.

(** X13.  Once a fetcher has returned, the client is in place: no later call
    of a fetcher logs in again. *)
Theorem fetchers_login_once (w : World) (r : JsValue) (w1 : World) :
  getSiteConfig w = (Return r, w1) ∨ (∃ slug query, getPage slug query w = (Return r, w1)) →
  truthy (client w1) = true ∧
  (∀ r' w2, getSiteConfig w1 = (r', w2) →
            login_count (calls w2) = login_count (calls w1)) ∧
  (∀ slug query r' w2, getPage slug query w1 = (r', w2) →
            login_count (calls w2) = login_count (calls w1)).
Proof.
  intros Hrun.
  assert (Hset : truthy (client w1) = true).
  { destruct Hrun as [H | (slug & query & H)].
    - pose proof H as H'. unfold getSiteConfig in H'.
      apply bind_Return in H' as (c & w0 & Hclient & _).
      destruct (getBackendClient_Return _ _ _ _ _ _ Hclient) as [Hc Hw0].
      destruct (getSiteConfig_after_client _ _ _ _ _ Hclient H) as [-> _]. congruence.
    - pose proof H as H'. unfold getPage in H'.
      apply bind_Return in H' as (c & w0 & Hclient & _).
      destruct (getBackendClient_Return _ _ _ _ _ _ Hclient) as [Hc Hw0].
      destruct (getPage_after_client _ _ _ _ _ _ _ Hclient H) as [-> _]. congruence. }
  split; [done |].
  pose proof (getBackendClient_set None None None w1 Hset) as Hclient.
  split.
  - intros r' w2 H. by destruct (getSiteConfig_after_client _ _ _ _ _ Hclient H).
  - intros slug query r' w2 H. by destruct (getPage_after_client _ _ _ _ _ _ _ Hclient H).
Qed.


(** X15.  A client whose [query] is a function is asked exactly once by
    [getPage], and for a slug without a dollar sign the text sent is the
    template (the default one, or the caller's) with its first
    placeholder replaced by the slug as it stands. *)
Theorem getPage_sends_literal (slug : string) (query : option string)
    (w : World) (lc : loc) (f : string) (w0 : World)
    (r : Completion JsValue) (w' : World) :
  getBackendClient None None None w = (Return (JRef lc), w0) →
  own_props (cell (heap w0) lc) !! "query" = Some (JFunction f) →
  dollar_free slug = true →
  getPage slug query w = (r, w') →
  issued_queries (calls w') =
    (issued_queries (calls w0) ++
     [JString (substitute_literally (default PAGE_QUERY query) "{{slug}}" slug)])%list.
Proof.
  intros Hclient Hf Hfree H. unfold getPage in H.
  rewrite (bind_run _ _ _ _ _ Hclient) in H.
  rewrite String_replace_literal in H by done.
  set (text := substitute_literally (default PAGE_QUERY query) "{{slug}}" slug) in *.
  assert (Hend : ∃ x w1,
    (let* resp := call_method (JRef lc) "query" [JString text] in
     let* page := lift (fun h => get_prop h resp "page") in
     call_method page "shift" []) w0 = (x, w1) ∧ calls w' = calls w1).
  { unfold bind at 1, try_catch in H.
    match type of H with context [match ?m w0 with _ => _ end] =>
      destruct (m w0) as [[a | e] w1] eqn:Hblock end.
    - unfold ret in H. injection H as _ <-. eauto.
    - unfold bind, get_heap, throw in H. injection H as _ <-. eauto. }
  destruct Hend as (x & w1 & Hblock & ->). clear H.
  apply bind_cases in Hblock as [(e & H & _) | (resp & w2 & H & H')].
  { rewrite (call_method_function lc f), host_call_run in H by done.
    injection H as _ <-. simpl. by rewrite issued_queries_app. }
  rewrite (call_method_function lc f), host_call_run in H by done.
  injection H as _ <-.
  apply bind_cases in H' as [(e & H' & _) | (page & w3 & H' & H'')].
  { unfold lift in H'. injection H' as _ <-. simpl. by rewrite issued_queries_app. }
  unfold lift in H'. injection H' as _ <-.
  apply call_method_calls in H'' as [-> | ->]; simpl.
  - by rewrite issued_queries_app.
  - rewrite !issued_queries_app. simpl. by rewrite app_nil_r.
Qed.

End Quiet.

(** ** More of the site configuration *)

Section SiteRuns.

Context `{host : Host}.

(** X6.  A failure of the first query (a rejection, or a client without a
    [query] method) ends [getSiteConfig]: the message goes to the error
    stream and is raised in an [Error]; no further query is made. *)
Theorem getSiteConfig_first_query_fails (w : World) (c : JsValue) (w0 : World)
    (e : JsValue) (w1 : World) :
  getBackendClient None None None w = (Return c, w0) →
  call_method c "query" [JString SITE_CONFIG_QUERY] w0 = (Throw e, w1) →
  let message := "Failed to retrieve site config: " ++ ToString (heap w1) e in
  getSiteConfig w =
    (Throw (Error message),
     mkWorld (heap w1) (client w1) (console w1 ++ [(Stderr, message)])%list (calls w1)).
Proof.
  intros Hclient Hquery message. unfold getSiteConfig.
  rewrite (bind_run _ _ _ _ _ Hclient).
  apply bind_throw. by rewrite (try_catch_throw _ _ _ _ _ Hquery).
Qed.

(** X7.  Outside maintenance mode the record returned is the [global] object
    of the response itself, not a copy; the store is as the response left
    it, the one query is the only call, and the debug line the only
    output. *)
Theorem getSiteConfig_normal (w : World) (c : JsValue) (w0 : World)
    (resp : JsValue) (w1 : World) :
  getBackendClient None None None w = (Return c, w0) →
  call_method c "query" [JString SITE_CONFIG_QUERY] w0 = (Return resp, w1) →
  let result := get_opt (heap w1) resp "global" in
  truthy result = true →
  get_opt (heap w1) result "service_mode" ≠ JString "maintenance" →
  getSiteConfig w =
    (Return result,
     mkWorld (heap w1) (client w1)
       (console w1 ++ [debug_line (heap w1) result])%list (calls w1)).
Proof.
  intros Hclient Hquery result Hglobal Hmode.
  by apply (site_config_plain w c w0 resp w1).
Qed.

(** All the ways [getSiteConfig] can end once the first query has
    answered. *)
Lemma site_config_cases (w : World) (c : JsValue) (w0 : World)
    (resp : JsValue) (w1 : World) (r : Completion JsValue) (w' : World) :
  first_response w c w0 resp w1 →
  getSiteConfig w = (r, w') →
  let result := get_opt (heap w1) resp "global" in
  (truthy result = false ∧ calls w' = calls w1 ∧
   ∃ l, r = Return (JRef l) ∧ heap w1 !! l = None ∧ heap w' = <[l := HObject ∅]> (heap w1)) ∨
  (truthy result = true ∧ get_opt (heap w1) result "service_mode" ≠ JString "maintenance" ∧
   calls w' = calls w1 ∧ r = Return result ∧ heap w' = heap w1) ∨
  (get_opt (heap w1) result "service_mode" = JString "maintenance" ∧
   calls w' = (calls w1 ++ [maintenance_call c])%list ∧
   ∃ l, result = JRef l ∧
     match settle (calls w1) (maintenance_call c) (heap w1) with
     | (Rejects e, h2) => ∃ message, r = Throw (Error message) ∧ heap w' = h2
     | (Resolves resp2, h2) =>
         r = Return result ∧ cell h2 l = cell (heap w1) l ∧
         heap w' = if truthy (get_opt h2 resp2 "global") then merged h2 l resp2 else h2
     end).
Proof.
  intros Hfirst Hrun result. subst result.
  destruct (truthy (get_opt (heap w1) resp "global")) eqn:Hglobal.
  2: { left. rewrite (site_config_empty _ _ _ _ _ Hfirst Hglobal) in Hrun.
       injection Hrun as <- <-. simpl. do 2 (split; [done |]).
       eexists. split; [done |]. split; [| done]. apply not_elem_of_dom, is_fresh. }
  right.
  destruct (decide (get_opt (heap w1) (get_opt (heap w1) resp "global") "service_mode"
                    = JString "maintenance")) as [Hmode | Hmode].
  2: { left. rewrite (site_config_plain _ _ _ _ _ Hfirst Hglobal Hmode) in Hrun.
       by injection Hrun as <- <-. }
  right. split; [done |].
  destruct (maintenance_record _ _ Hmode) as (l & Hl & _ & Hprop).
  destruct (settle (calls w1) (maintenance_call c) (heap w1)) as [[resp2 | e] h2] eqn:Hsettle.
  - assert (Hkept : cell h2 l = cell (heap w1) l).
    { replace h2 with (settle (calls w1) (maintenance_call c) (heap w1)).2
        by by rewrite Hsettle.
      by rewrite (cell_extends (heap w1) _ l _ _ (settle_extends _ _ _) Hprop). }
    destruct (truthy (get_opt h2 resp2 "global")) eqn:Hglobal2.
    + pose proof Hmode as Hmode'. rewrite Hl in Hmode'.
      rewrite (site_config_merge _ _ _ _ _ _ _ _ Hfirst Hl Hmode' Hsettle Hglobal2) in Hrun.
      injection Hrun as <- <-. simpl. split; [done |]. exists l. by rewrite Hl.
    + rewrite (site_config_skip _ _ _ _ _ _ _ Hfirst Hmode Hsettle Hglobal2) in Hrun.
      injection Hrun as <- <-. simpl. split; [done |]. by exists l.
  - rewrite (site_config_fail _ _ _ _ _ _ _ Hfirst Hmode Hsettle) in Hrun.
    injection Hrun as <- <-. simpl. split; [done |]. exists l. split; [done |]. eauto.
Qed.

(** X8.  The maintenance query is made exactly when the first response is in
    maintenance mode, and then once, after the first: however
    [getSiteConfig] ends, these are its calls. *)
Theorem getSiteConfig_queries (w : World) (c : JsValue) (w0 : World)
    (resp : JsValue) (w1 : World) (r : Completion JsValue) (w' : World) :
  getBackendClient None None None w = (Return c, w0) →
  call_method c "query" [JString SITE_CONFIG_QUERY] w0 = (Return resp, w1) →
  getSiteConfig w = (r, w') →
  calls w' =
    if strict_equals (get_opt (heap w1) (get_opt (heap w1) resp "global") "service_mode")
                     (JString "maintenance")
    then (calls w1 ++ [maintenance_call c])%list
    else calls w1.
Proof.
  intros Hclient Hquery Hrun.
  assert (Hfirst : first_response w c w0 resp w1) by done.
  unfold strict_equals.
  destruct (site_config_cases _ _ _ _ _ _ _ Hfirst Hrun)
    as [(Hglobal & -> & _) | [(_ & Hmode & -> & _) | (Hmode & -> & _)]].
  - rewrite bool_decide_eq_false_2; [done |]. intros Hmode.
    destruct (maintenance_record _ _ Hmode) as (l & Hl & _). by rewrite Hl in Hglobal.
  - by rewrite bool_decide_eq_false_2.
  - by rewrite bool_decide_eq_true_2.
Qed.

(** X9.  What the backend answered is handed on: apart from the two
    maintenance fields, every field of the record returned has the value
    it had in the [global] object of the first response. *)
Theorem getSiteConfig_fields_kept (w : World) (c : JsValue) (w0 : World)
    (resp : JsValue) (w1 : World) (r : JsValue) (w' : World) (k : string) :
  getBackendClient None None None w = (Return c, w0) →
  call_method c "query" [JString SITE_CONFIG_QUERY] w0 = (Return resp, w1) →
  truthy (get_opt (heap w1) resp "global") = true →
  getSiteConfig w = (Return r, w') →
  k ≠ "maintenance_page_title" → k ≠ "maintenance_page_body" →
  r = get_opt (heap w1) resp "global" ∧
  get_opt (heap w') r k = get_opt (heap w1) r k.
Proof.
  intros Hclient Hquery Hglobal Hrun Htitle Hbody.
  assert (Hfirst : first_response w c w0 resp w1) by done.
  destruct (site_config_cases _ _ _ _ _ _ _ Hfirst Hrun)
    as [(Hno & _) | [(_ & _ & _ & [= ->] & ->) | (_ & _ & l & Hl & Hend)]].
  - congruence.
  - done.
  - destruct (settle (calls w1) (maintenance_call c) (heap w1)) as [[resp2 | e] h2].
    2: { by destruct Hend as (? & ? & _). }
    destruct Hend as ([= ->] & Hkept & ->). split; [done |].
    rewrite Hl. destruct (truthy (get_opt h2 resp2 "global")).
    + rewrite merged_other by done. simpl. by rewrite Hkept.
    + simpl. by rewrite Hkept.
Qed.

(** X10.  The merge assigns both fields whatever the maintenance record holds:
    a field that record lacks is in the result all the same, with the
    value [undefined]. *)
Theorem getSiteConfig_merges_missing (w : World) (c : JsValue) (w0 : World)
    (resp : JsValue) (w1 : World) (resp2 : JsValue) (h2 : Heap)
    (r : JsValue) (w' : World) (k : string) :
  getBackendClient None None None w = (Return c, w0) →
  call_method c "query" [JString SITE_CONFIG_QUERY] w0 = (Return resp, w1) →
  get_opt (heap w1) (get_opt (heap w1) resp "global") "service_mode"
    = JString "maintenance" →
  settle (calls w1) (maintenance_call c) (heap w1) = (Resolves resp2, h2) →
  truthy (get_opt h2 resp2 "global") = true →
  k = "maintenance_page_title" ∨ k = "maintenance_page_body" →
  has_field h2 (get_opt h2 resp2 "global") k = false →
  getSiteConfig w = (Return r, w') →
  has_field (heap w') r k = true ∧ get_opt (heap w') r k = JUndefined.
Proof.
  intros Hclient Hquery Hmode Hsettle Hglobal2 Hk Hmissing Hrun.
  assert (Hfirst : first_response w c w0 resp w1) by done.
  destruct (maintenance_record _ _ Hmode) as (l & Hl & _ & _).
  pose proof Hmode as Hmode'. rewrite Hl in Hmode'.
  rewrite (site_config_merge _ _ _ _ _ _ _ _ Hfirst Hl Hmode' Hsettle Hglobal2) in Hrun.
  injection Hrun as <- <-. simpl heap.
  assert (Hundef : get_opt h2 (get_opt h2 resp2 "global") k = JUndefined).
  { destruct (get_opt h2 resp2 "global") as [| | | | | | en em | l2]; try done.
    - simpl. destruct Hk as [-> | ->]; done.
    - simpl in *. apply bool_decide_eq_false in Hmissing.
      destruct (own_props (cell h2 l2) !! k) eqn:Hlook; [| done].
      exfalso. apply Hmissing. eauto. }
  pose proof (merged_has_fields h2 l resp2) as [Ht Hb]%andb_true_iff.
  destruct Hk as [-> | ->].
  - split; [done |]. by rewrite merged_title.
  - split; [done |]. by rewrite merged_body.
Qed.

End SiteRuns.

(** ** More of the client provider *)

Section ClientRuns.

Context `{host : Host}.



(** X2.  A first call that fails fails in one of two ways.  Either the
    building of the client failed: nothing is stored and no login was
    attempted, so that the next call starts over.  Or the error is the
    wrapped one of the login step. *)
Theorem getBackendClient_failures (u p l : option string) (w : World)
    (e : JsValue) (w1 : World) :
  truthy (client w) = false →
  getBackendClient u p l w = (Throw e, w1) →
  (client w1 = client w ∧ login_count (calls w1) = login_count (calls w)) ∨
  (∃ err, e = Error ("Failed to log into backend: " ++ JSON_stringify (heap w1) err)).
Proof.
  intros Hunset H. unfold getBackendClient in H.
  rewrite (bind_run read_client _ w (client w) w) in H by done.
  rewrite Hunset in H. cbv [negb] in H.
  apply bind_cases in H as [(e' & Hbuild & _) | ([] & wa & Hbuild & H)].
  { left.
    apply bind_cases in Hbuild as [(? & Hd & _) | (d0 & w2 & Hd0 & Hbuild)].
    { by apply host_call_logins in Hd as [? ?]. }
    apply host_call_logins in Hd0 as [? ?]; [| done].
    apply bind_cases in Hbuild as [(? & Hd & _) | (d1 & w3 & Hd1 & Hbuild)].
    { apply extend_logins in Hd as [? ?]; [split; congruence | done]. }
    apply extend_logins in Hd1 as [? ?]; [| done].
    apply bind_cases in Hbuild as [(? & Hd & _) | (d2 & w4 & Hd2 & Hbuild)].
    { apply extend_logins in Hd as [? ?]; [split; congruence | done]. }
    apply extend_logins in Hd2 as [? ?]; [| done].
    apply bind_cases in Hbuild as [(? & Hd & _) | (d3 & w5 & Hd3 & Hbuild)].
    { apply extend_logins in Hd as [? ?]; [split; congruence | done]. }
    unfold write_client in Hbuild. discriminate Hbuild. }
  right.
  apply bind_cases in H as [(e' & Hlogin & [= <-]) | ([] & wb & _ & H)].
  2: { unfold read_client in H. discriminate H. }
  unfold try_catch in Hlogin.
  match type of Hlogin with context [match ?m ?x with _ => _ end] =>
    destruct (m x) as [[[] | err] wl] end; [discriminate Hlogin |].
  unfold bind, get_heap, throw in Hlogin. injection Hlogin as <- <-. eauto.
Qed.

End ClientRuns.

(** ** Further worked runs *)

#[global] Instance HeapCell_eq_dec : EqDecision HeapCell.
Proof. solve_decision. Defined.

#[global] Instance Completion_eq_dec {A : Type} `{EqDecision A} : EqDecision (Completion A).
Proof. solve_decision. Defined.

#[global] Instance World_eq_dec : EqDecision World.
Proof. solve_decision. Defined.

(** The site configuration query failing; a maintenance text without a
    body. *)
Definition site_query_failing : Host :=
  Mock.mock (Scenario.backend [Mock.Failure "network down"]).

Definition maintenance_title_only : Host :=
  Mock.mock (Scenario.backend
    [Mock.Data (Scenario.site_config "maintenance");
     Mock.Data (Mock.JsonObject
       [("global", Mock.JsonObject [("maintenance_page_title", Mock.JsonString "Down")])])]).

(** The leftmost of two placeholders is the one replaced. *)
Lemma String_replace_leftmost_witness :
  "x{{slug}}y{{slug}}" = "x" ++ "{{slug}}" ++ "y{{slug}}" ∧
  dollar_free "about" = true ∧
  ∃ before after,
    "x{{slug}}y{{slug}}" = before ++ "{{slug}}" ++ after ∧
    (∀ b' a', "x{{slug}}y{{slug}}" = b' ++ "{{slug}}" ++ a' →
              (String.length before ≤ String.length b')%nat) ∧
    String_replace "x{{slug}}y{{slug}}" "{{slug}}" "about" = before ++ "about" ++ after.
Proof.
  split; [reflexivity |]. split; [reflexivity |].
  exact (String_replace_leftmost "x{{slug}}y{{slug}}" "{{slug}}" "about" "x" "y{{slug}}"
           eq_refl eq_refl).
Defined.

(** A template without the placeholder: the slug goes nowhere. *)
Lemma String_replace_absent_witness :
  (∀ b a, "{ page { title } }" ≠ b ++ "{{slug}}" ++ a) ∧
  String_replace "{ page { title } }" "{{slug}}" "about" = "{ page { title } }".
Proof.
  assert (H : ∀ b a, "{ page { title } }" ≠ b ++ "{{slug}}" ++ a).
  { intros b a Hs. destruct (find_first_complete _ _ _ _ Hs) as (? & ? & Hfind).
    vm_compute in Hfind. discriminate Hfind. }
  split; [exact H |].
  exact (String_replace_absent "{ page { title } }" "{{slug}}" "about" H).
Defined.



(** A rejected login: the wrapped error. *)
Lemma getBackendClient_failures_witness :
  let host := Scenario.changed_password in
  let w1 := (connect host).2 in
  truthy (client boot) = false ∧
  connect host = (Throw (Error "Failed to log into backend: {}"), w1) ∧
  ((client w1 = client boot ∧ login_count (calls w1) = login_count (calls boot)) ∨
   (∃ err, Error "Failed to log into backend: {}"
           = Error ("Failed to log into backend: " ++ JSON_stringify (heap w1) err))).
Proof.
  intros host w1.
  assert (H : connect host = (Throw (Error "Failed to log into backend: {}"), w1))
    by compute_done.
  split; [reflexivity |]. split; [exact H |].
  exact (getBackendClient_failures None None None boot _ w1 eq_refl H).
Defined.

(** A rejected login leaves the client behind. *)
Lemma login_rejection_memoized_witness :
  let host := Scenario.changed_password in
  let w1 := (connect host).2 in
  truthy (client boot) = false ∧
  connect host = (Throw (Error "Failed to log into backend: {}"), w1) ∧
  login_count (calls w1) ≠ login_count (calls boot) ∧
  truthy (client w1) = true ∧
  getBackendClient None None None w1 = (Return (client w1), w1).
Proof.
  intros host w1.
  assert (H : connect host = (Throw (Error "Failed to log into backend: {}"), w1))
    by compute_done.
  assert (Hcount : login_count (calls w1) ≠ login_count (calls boot))
    by compute_done.
  split; [reflexivity |]. split; [exact H |]. split; [exact Hcount |].
  destruct (login_rejection_memoized None None None boot _ w1 eq_refl H Hcount)
    as (_ & Hset & Hnext).
  split; [exact Hset | exact (Hnext None None None)].
Defined.

(** The first query rejected. *)
Lemma getSiteConfig_first_query_fails_witness :
  let host := site_query_failing in
  let w0 := (connect host).2 in
  let w1 := (call_method (JRef 6) "query" [JString SITE_CONFIG_QUERY] w0).2 in
  connect host = (Return (JRef 6), w0) ∧
  call_method (JRef 6) "query" [JString SITE_CONFIG_QUERY] w0
    = (Throw (Error "network down"), w1) ∧
  getSiteConfig boot =
    (Throw (Error "Failed to retrieve site config: Error: network down"),
     mkWorld (heap w1) (client w1)
       (console w1 ++ [(Stderr, "Failed to retrieve site config: Error: network down")])%list
       (calls w1)).
Proof.
  intros host w0 w1.
  assert (H0 : connect host = (Return (JRef 6), w0)) by compute_done.
  assert (H1 : call_method (JRef 6) "query" [JString SITE_CONFIG_QUERY] w0
               = (Throw (Error "network down"), w1)) by compute_done.
  split; [exact H0 |]. split; [exact H1 |].
  exact (getSiteConfig_first_query_fails boot _ _ _ _ H0 H1).
Defined.

(** The normal site: the record is the response's own [global]. *)
Lemma getSiteConfig_normal_witness :
  let host := Scenario.normal_site in
  let w0 := (connect host).2 in
  let w1 := (call_method (JRef 6) "query" [JString SITE_CONFIG_QUERY] w0).2 in
  connect host = (Return (JRef 6), w0) ∧
  call_method (JRef 6) "query" [JString SITE_CONFIG_QUERY] w0 = (Return (JRef 9), w1) ∧
  truthy (get_opt (heap w1) (JRef 9) "global") = true ∧
  get_opt (heap w1) (get_opt (heap w1) (JRef 9) "global") "service_mode"
    ≠ JString "maintenance" ∧
  getSiteConfig boot =
    (Return (JRef 8),
     mkWorld (heap w1) (client w1)
       (console w1 ++ [debug_line (heap w1) (JRef 8)])%list (calls w1)).
Proof.
  intros host w0 w1.
  assert (H0 : connect host = (Return (JRef 6), w0)) by compute_done.
  assert (H1 : call_method (JRef 6) "query" [JString SITE_CONFIG_QUERY] w0
               = (Return (JRef 9), w1)) by compute_done.
  assert (H2 : truthy (get_opt (heap w1) (JRef 9) "global") = true)
    by compute_done.
  assert (H3 : get_opt (heap w1) (get_opt (heap w1) (JRef 9) "global") "service_mode"
               ≠ JString "maintenance") by compute_done.
  split; [exact H0 |]. split; [exact H1 |]. split; [exact H2 |]. split; [exact H3 |].
  exact (getSiteConfig_normal boot _ _ _ _ H0 H1 H2 H3).
Defined.

(** In maintenance: two queries, the second the maintenance one. *)
Lemma getSiteConfig_queries_witness :
  let host := Scenario.site_in_maintenance in
  let w0 := (connect host).2 in
  let w1 := (call_method (JRef 6) "query" [JString SITE_CONFIG_QUERY] w0).2 in
  let run := getSiteConfig boot in
  connect host = (Return (JRef 6), w0) ∧
  call_method (JRef 6) "query" [JString SITE_CONFIG_QUERY] w0 = (Return (JRef 9), w1) ∧
  getSiteConfig boot = (Return (JRef 8), run.2) ∧
  calls run.2 = (calls w1 ++ [maintenance_call (JRef 6)])%list.
Proof.
  intros host w0 w1 run.
  assert (H0 : connect host = (Return (JRef 6), w0)) by compute_done.
  assert (H1 : call_method (JRef 6) "query" [JString SITE_CONFIG_QUERY] w0
               = (Return (JRef 9), w1)) by compute_done.
  assert (H2 : getSiteConfig boot = (Return (JRef 8), run.2)) by compute_done.
  split; [exact H0 |]. split; [exact H1 |]. split; [exact H2 |].
  etrans; [exact (getSiteConfig_queries boot _ _ _ _ _ _ H0 H1 H2) |].
  compute_done.
Defined.

(** In maintenance the title of the site is still the backend's. *)
Lemma getSiteConfig_fields_kept_witness :
  let host := Scenario.site_in_maintenance in
  let w0 := (connect host).2 in
  let w1 := (call_method (JRef 6) "query" [JString SITE_CONFIG_QUERY] w0).2 in
  let run := getSiteConfig boot in
  connect host = (Return (JRef 6), w0) ∧
  call_method (JRef 6) "query" [JString SITE_CONFIG_QUERY] w0 = (Return (JRef 9), w1) ∧
  truthy (get_opt (heap w1) (JRef 9) "global") = true ∧
  getSiteConfig boot = (Return (JRef 8), run.2) ∧
  "title" ≠ "maintenance_page_title" ∧ "title" ≠ "maintenance_page_body" ∧
  JRef 8 = get_opt (heap w1) (JRef 9) "global" ∧
  get_opt (heap run.2) (JRef 8) "title" = get_opt (heap w1) (JRef 8) "title".
Proof.
  intros host w0 w1 run.
  assert (H0 : connect host = (Return (JRef 6), w0)) by compute_done.
  assert (H1 : call_method (JRef 6) "query" [JString SITE_CONFIG_QUERY] w0
               = (Return (JRef 9), w1)) by compute_done.
  assert (H2 : truthy (get_opt (heap w1) (JRef 9) "global") = true)
    by compute_done.
  assert (H3 : getSiteConfig boot = (Return (JRef 8), run.2)) by compute_done.
  assert (H4 : "title" ≠ "maintenance_page_title") by discriminate.
  assert (H5 : "title" ≠ "maintenance_page_body") by discriminate.
  split; [exact H0 |]. split; [exact H1 |]. split; [exact H2 |]. split; [exact H3 |].
  split; [exact H4 |]. split; [exact H5 |].
  exact (getSiteConfig_fields_kept boot _ _ _ _ _ _ "title" H0 H1 H2 H3 H4 H5).
Defined.

(** A maintenance text without a body: the body is [undefined]. *)
Lemma getSiteConfig_merges_missing_witness :
  let host := maintenance_title_only in
  let w0 := (connect host).2 in
  let w1 := (call_method (JRef 6) "query" [JString SITE_CONFIG_QUERY] w0).2 in
  let h2 := (settle (calls w1) (maintenance_call (JRef 6)) (heap w1)).2 in
  let run := getSiteConfig boot in
  connect host = (Return (JRef 6), w0) ∧
  call_method (JRef 6) "query" [JString SITE_CONFIG_QUERY] w0 = (Return (JRef 9), w1) ∧
  get_opt (heap w1) (get_opt (heap w1) (JRef 9) "global") "service_mode"
    = JString "maintenance" ∧
  settle (calls w1) (maintenance_call (JRef 6)) (heap w1) = (Resolves (JRef 11), h2) ∧
  truthy (get_opt h2 (JRef 11) "global") = true ∧
  has_field h2 (get_opt h2 (JRef 11) "global") "maintenance_page_body" = false ∧
  getSiteConfig boot = (Return (JRef 8), run.2) ∧
  has_field (heap run.2) (JRef 8) "maintenance_page_body" = true ∧
  get_opt (heap run.2) (JRef 8) "maintenance_page_body" = JUndefined.
Proof.
  intros host w0 w1 h2 run.
  assert (H0 : connect host = (Return (JRef 6), w0)) by compute_done.
  assert (H1 : call_method (JRef 6) "query" [JString SITE_CONFIG_QUERY] w0
               = (Return (JRef 9), w1)) by compute_done.
  assert (H2 : get_opt (heap w1) (get_opt (heap w1) (JRef 9) "global") "service_mode"
               = JString "maintenance") by compute_done.
  assert (H3 : settle (calls w1) (maintenance_call (JRef 6)) (heap w1)
               = (Resolves (JRef 11), h2)) by compute_done.
  assert (H4 : truthy (get_opt h2 (JRef 11) "global") = true) by compute_done.
  assert (H5 : has_field h2 (get_opt h2 (JRef 11) "global") "maintenance_page_body" = false)
    by compute_done.
  assert (H6 : getSiteConfig boot = (Return (JRef 8), run.2)) by compute_done.
  split; [exact H0 |]. split; [exact H1 |]. split; [exact H2 |]. split; [exact H3 |].
  split; [exact H4 |]. split; [exact H5 |]. split; [exact H6 |].
  exact (getSiteConfig_merges_missing boot _ _ _ _ _ _ _ _ "maintenance_page_body"
           H0 H1 H2 H3 H4 (or_intror eq_refl) H5 H6).
Defined.

(** A second run of [getSiteConfig], which the scripted backend leaves
    unanswered: a failure, and still no second login. *)
Lemma getSiteConfig_keeps_client_witness :
  let host := Scenario.normal_site in
  let w1 := (getSiteConfig boot).2 in
  let run := getSiteConfig w1 in
  truthy (client w1) = true ∧
  getSiteConfig w1 = (Throw (Error "Failed to retrieve site config: Error: fetch failed"), run.2) ∧
  client run.2 = client w1 ∧
  login_count (calls run.2) = login_count (calls w1).
Proof.
  intros host w1 run.
  assert (H0 : truthy (client w1) = true) by compute_done.
  assert (H1 : getSiteConfig w1 = (Throw (Error "Failed to retrieve site config: Error: fetch failed"), run.2)) by compute_done.
  split; [exact H0 |]. split; [exact H1 |].
  exact (getSiteConfig_keeps_client w1 _ _ H0 H1).
Defined.

(** A page fetched with the client in place: one query, no login. *)
Lemma getPage_keeps_client_witness :
  let host := Scenario.one_page in
  let w := (connect host).2 in
  let run := getPage "about" None w in
  truthy (client w) = true ∧
  getPage "about" None w = (Return (JRef 7), run.2) ∧
  client run.2 = client w ∧
  login_count (calls run.2) = login_count (calls w) ∧
  (issued_queries (calls run.2) = issued_queries (calls w) ∨
   issued_queries (calls run.2) =
     (issued_queries (calls w) ++
      [JString (String_replace PAGE_QUERY "{{slug}}" "about")])%list).
Proof.
  intros host w run.
  assert (H0 : truthy (client w) = true) by compute_done.
  assert (H1 : getPage "about" None w = (Return (JRef 7), run.2)) by compute_done.
  split; [exact H0 |]. split; [exact H1 |].
  exact (getPage_keeps_client "about" None w _ _ H0 H1).
Defined.

(** The site configuration first, a page next: one login in all. *)
Lemma fetchers_login_once_witness :
  let host := Scenario.normal_site in
  let w1 := (getSiteConfig boot).2 in
  (getSiteConfig boot = (Return (JRef 8), w1) ∨
   ∃ slug query, getPage slug query boot = (Return (JRef 8), w1)) ∧
  truthy (client w1) = true ∧
  login_count (calls (getPage "about" None w1).2) = login_count (calls w1).
Proof.
  intros host w1.
  assert (H : getSiteConfig boot = (Return (JRef 8), w1)) by compute_done.
  split; [left; exact H |].
  destruct (fetchers_login_once boot (JRef 8) w1 (or_introl H)) as (Hset & _ & Hpage).
  split; [exact Hset |].
  apply (Hpage "about" None (getPage "about" None w1).1). by destruct (getPage "about" None w1).
Defined.


(** The query for [about], as sent. *)
Lemma getPage_sends_literal_witness :
  let host := Scenario.one_page in
  let w0 := (connect host).2 in
  let run := getPage "about" None boot in
  connect host = (Return (JRef 6), w0) ∧
  own_props (cell (heap w0) 6) !! "query" = Some (JFunction "query") ∧
  dollar_free "about" = true ∧
  getPage "about" None boot = (Return (JRef 7), run.2) ∧
  issued_queries (calls run.2) =
    (issued_queries (calls w0) ++
     [JString (substitute_literally PAGE_QUERY "{{slug}}" "about")])%list.
Proof.
  intros host w0 run.
  assert (H0 : connect host = (Return (JRef 6), w0)) by compute_done.
  assert (H1 : own_props (cell (heap w0) 6) !! "query" = Some (JFunction "query"))
    by compute_done.
  assert (H2 : getPage "about" None boot = (Return (JRef 7), run.2))
    by compute_done.
  split; [exact H0 |]. split; [exact H1 |]. split; [reflexivity |]. split; [exact H2 |].
  exact (getPage_sends_literal "about" None boot 6 "query" w0 _ _ H0 H1 eq_refl H2).
Defined.
